(** * Kidde HomeSafe sensor platform: a shallow embedding of
      [custom_components/kidde_homesafe/sensor.py] and its properties.

    The embedding follows the Python source function by function.  Raw
    device data are JSON values as the coordinator hands them over; a Python
    [dict] keyed by strings is a [gmap string _]; raising an exception is an
    explicit outcome of every accessor.  Strings are ASCII text (one [ascii]
    per code point). *)

From Stdlib Require Import ZArith Ascii String List Bool Lia.
From stdpp Require Import base option list gmap strings.

Local Open Scope string_scope.
Local Open Scope Z_scope.
Local Open Scope list_scope.

(** ** Python values and outcomes *)

Module Py.

(** A Python [float]: not-a-number, an infinity, or the dyadic [m * 2^e]. *)
Inductive pyfloat : Type :=
  | FNan
  | FInf (negative : bool)
  | FFin (m e : Z).

(** The values [json.loads] can produce. *)
#[warnings="-register-all"]
Inductive value : Type :=
  | PNone
  | PBool (b : bool)
  | PInt (n : Z)
  | PFloat (f : pyfloat)
  | PStr (s : string)
  | PList (l : list value)
  | PDict (d : gmap string value).

(** The exceptions the modelled code can raise. *)
Inductive exn : Type := TypeError | AttributeError | ValueError | KeyError.

Inductive result (A : Type) : Type :=
  | Ret (a : A)
  | Raise (e : exn).
Arguments Ret {A} a.
Arguments Raise {A} e.

Definition bind {A B} (r : result A) (k : A -> result B) : result B :=
  match r with
  | Ret a => k a
  | Raise e => Raise e
  end.

Definition returns {A} (r : result A) : Prop := exists a, r = Ret a.

(** [isinstance(v, dict)] *)
Definition is_dict (v : value) : bool :=
  match v with PDict _ => true | _ => false end.

(** [hash(v)] succeeds: lists and dicts are unhashable. *)
Definition hashable (v : value) : bool :=
  match v with PList _ | PDict _ => false | _ => true end.

(** The integer a float is equal to ([f == n]), if there is one. *)
Definition float_as_int (f : pyfloat) : option Z :=
  match f with
  | FFin m e =>
      if 0 <=? e then Some (m * 2 ^ e)
      else if m mod 2 ^ (- e) =? 0 then Some (m / 2 ^ (- e)) else None
  | _ => None
  end.

(** The integer [n] with [v == n], if there is one: numbers compare by
    value across [int], [bool] and [float]; [True] and [False] are 1 and 0. *)
Definition as_int (v : value) : option Z :=
  match v with
  | PInt k => Some k
  | PBool b => Some (if b then 1 else 0)
  | PFloat f => float_as_int f
  | _ => None
  end.

(** [v in s] for a set [s] of ints: hashing an unhashable value raises. *)
Definition in_int_set (v : value) (s : gset Z) : result bool :=
  if hashable v then
    Ret (match as_int v with Some n => bool_decide (n ∈ s) | None => false end)
  else Raise TypeError.

(** [d.get(k)] on a dict, [None] when absent. *)
Definition get (d : gmap string value) (k : string) : value :=
  default PNone (d !! k).

(** [d.get(k, dflt)] *)
Definition get_default (d : gmap string value) (k : string) (dflt : value) : value :=
  default dflt (d !! k).

(** [k in d] *)
Definition contains (d : gmap string value) (k : string) : bool :=
  bool_decide (is_Some (d !! k)).

End Py.

(** ** The string methods the platform calls *)

Module Str.

Definition is_lower (c : ascii) : bool :=
  ((97 <=? nat_of_ascii c) && (nat_of_ascii c <=? 122))%nat.

(** One character of [str.upper()]. *)
Definition upper_char (c : ascii) : ascii :=
  if is_lower c then ascii_of_nat (nat_of_ascii c - 32) else c.

(** [s.upper()] *)
Fixpoint upper (s : string) : string :=
  match s with
  | EmptyString => EmptyString
  | String c r => String (upper_char c) (upper r)
  end.

(** [s.lstrip(c)] for a one-character argument. *)
Fixpoint lstrip (c : ascii) (s : string) : string :=
  match s with
  | EmptyString => EmptyString
  | String a r => if Ascii.eqb a c then lstrip c r else s
  end.

(** [s.rstrip(c)] for a one-character argument. *)
Fixpoint rstrip (c : ascii) (s : string) : string :=
  match s with
  | EmptyString => EmptyString
  | String a r =>
      match rstrip c r with
      | EmptyString => if Ascii.eqb a c then EmptyString else String a EmptyString
      | r' => String a r'
      end
  end.

(** [s.strip(c)]: the characters are removed from both ends. *)
Definition strip (c : ascii) (s : string) : string := rstrip c (lstrip c s).

(** [s.split(c)[0]]: what precedes the first occurrence of [c]. *)
Fixpoint split_head (c : ascii) (s : string) : string :=
  match s with
  | EmptyString => EmptyString
  | String a r => if Ascii.eqb a c then EmptyString else String a (split_head c r)
  end.

(** [c * n] *)
Fixpoint repeat_char (c : ascii) (n : nat) : string :=
  match n with
  | O => EmptyString
  | S k => String c (repeat_char c k)
  end.

End Str.

(** ** [datetime.datetime.strptime(s, "%Y-%m-%dT%H:%M:%S")]

    CPython turns the format into the regular expression
    [(\d\d\d\d)-(1[0-2]|0[1-9]|[1-9])-(3[0-1]|[1-2]\d|0[1-9]|[1-9]| [1-9])T
     (2[0-3]|[0-1]\d|\d):([0-5]\d|\d):(6[0-1]|[0-5]\d|\d)],
    compiled case-insensitively and matched at the start of the string; data
    left over after the match, a date that does not exist and a second above
    59 all raise [ValueError]. *)

Module Datetime.

Inductive tzinfo : Type := UTC.

Record datetime : Type := mk_datetime {
  year : Z; month : Z; day : Z;
  hour : Z; minute : Z; second : Z;
  microsecond : Z;
  tz : option tzinfo
}.

(** [dt.replace(tzinfo=z)] *)
Definition replace_tzinfo (dt : datetime) (z : tzinfo) : datetime :=
  mk_datetime (year dt) (month dt) (day dt) (hour dt) (minute dt) (second dt)
              (microsecond dt) (Some z).

Definition is_leap (y : Z) : bool :=
  (y mod 4 =? 0) && (negb (y mod 100 =? 0) || (y mod 400 =? 0)).

Definition days_in_month (y m : Z) : Z :=
  if m =? 2 then (if is_leap y then 29 else 28)
  else if (m =? 4) || (m =? 6) || (m =? 9) || (m =? 11) then 30
  else 31.

(** The range checks of the [datetime] constructor. *)
Definition valid_fields (y m d hh mi ss : Z) : bool :=
  (1 <=? y) && (y <=? 9999) && (1 <=? m) && (m <=? 12) &&
  (1 <=? d) && (d <=? days_in_month y m) &&
  (0 <=? hh) && (hh <=? 23) && (0 <=? mi) && (mi <=? 59) &&
  (0 <=? ss) && (ss <=? 59).

Section Regex.
Context {T : Type}.

(** A decimal digit and its value. *)
Definition digit (c : ascii) : option Z :=
  let n := nat_of_ascii c in
  if ((48 <=? n) && (n <=? 57))%nat then Some (Z.of_nat n - 48) else None.

(** First alternative that leads to a match. *)
Definition orelse (a b : option T) : option T :=
  match a with Some _ => a | None => b end.

(** A digit in [lo-hi]. *)
Definition one (lo hi : Z) (k : Z -> string -> option T) (s : string) : option T :=
  match s with
  | String c r =>
      match digit c with
      | Some d => if (lo <=? d) && (d <=? hi) then k d r else None
      | None => None
      end
  | EmptyString => None
  end.

(** A digit in [lo1-hi1] followed by a digit in [lo2-hi2]. *)
Definition two (lo1 hi1 lo2 hi2 : Z) (k : Z -> string -> option T) : string -> option T :=
  one lo1 hi1 (fun d1 => one lo2 hi2 (fun d2 => k (10 * d1 + d2))).

(** A literal character, letters in either case. *)
Definition lit (c : ascii) (k : string -> option T) (s : string) : option T :=
  match s with
  | String a r => if Ascii.eqb (Str.upper_char a) (Str.upper_char c) then k r else None
  | EmptyString => None
  end.

Definition re_Y (k : Z -> string -> option T) : string -> option T :=
  one 0 9 (fun a => one 0 9 (fun b => one 0 9 (fun c => one 0 9 (fun d =>
    k (1000 * a + 100 * b + 10 * c + d))))).

Definition re_m (k : Z -> string -> option T) (s : string) : option T :=
  orelse (two 1 1 0 2 k s) (orelse (two 0 0 1 9 k s) (one 1 9 k s)).

Definition re_d (k : Z -> string -> option T) (s : string) : option T :=
  orelse (two 3 3 0 1 k s) (orelse (two 1 2 0 9 k s) (orelse (two 0 0 1 9 k s)
    (orelse (one 1 9 k s) (lit " " (one 1 9 k) s)))).

Definition re_H (k : Z -> string -> option T) (s : string) : option T :=
  orelse (two 2 2 0 3 k s) (orelse (two 0 1 0 9 k s) (one 0 9 k s)).

Definition re_M (k : Z -> string -> option T) (s : string) : option T :=
  orelse (two 0 5 0 9 k s) (one 0 9 k s).

Definition re_S (k : Z -> string -> option T) (s : string) : option T :=
  orelse (two 6 6 0 1 k s) (orelse (two 0 5 0 9 k s) (one 0 9 k s)).
End Regex.

(** The groups of the first match and the text after it. *)
Definition format_match (s : string) : option (Z * Z * Z * Z * Z * Z * string) :=
  re_Y (fun y => lit "-" (re_m (fun m => lit "-" (re_d (fun d => lit "T"
    (re_H (fun hh => lit ":" (re_M (fun mi => lit ":" (re_S (fun ss rest =>
      Some (y, m, d, hh, mi, ss, rest)))))))))))) s.

Definition strptime (s : string) : Py.result datetime :=
  match format_match s with
  | None => Py.Raise Py.ValueError
  | Some (y, m, d, hh, mi, ss, rest) =>
      match rest with
      | String _ _ => Py.Raise Py.ValueError
      | EmptyString =>
          if valid_fields y m d hh mi ss
          then Py.Ret (mk_datetime y m d hh mi ss 0 None)
          else Py.Raise Py.ValueError
      end
  end.

End Datetime.

(** ** The field catalog *)

Module Catalog.

Inductive unit_of_measurement : Type :=
  | DAYS | WEEKS | HOURS                    (* UnitOfTime *)
  | VOLT                                    (* UnitOfElectricPotential *)
  | SIGNAL_STRENGTH_DECIBELS
  | FAHRENHEIT | CELSIUS                    (* UnitOfTemperature *)
  | PERCENTAGE
  | PA                                      (* UnitOfPressure *)
  | CONCENTRATION_PARTS_PER_BILLION
  | CONCENTRATION_PARTS_PER_MILLION.

Inductive SensorDeviceClass : Type :=
  | TIMESTAMP | ENUM | VOLTAGE | SIGNAL_STRENGTH | TEMPERATURE | HUMIDITY
  | ATMOSPHERIC_PRESSURE | VOLATILE_ORGANIC_COMPOUNDS_PARTS | AQI | CO2.

Inductive SensorStateClass : Type := MEASUREMENT.

Inductive EntityCategory : Type := DIAGNOSTIC.

Record SensorEntityDescription : Type := mk_description {
  key : string;
  icon : option string;
  name : string;
  device_class : option SensorDeviceClass;
  state_class : option SensorStateClass;
  native_unit_of_measurement : option unit_of_measurement;
  suggested_display_precision : option Z;
  entity_category : option EntityCategory;
  entity_registry_enabled_default : bool;
  options : option (list string)
}.

(** [desc.replace]: a [SensorEntityDescription] is a frozen dataclass of the
    host framework with the fields above and no attribute [replace]
    ([dataclasses.replace] is a function of the module, not a method), so the
    attribute lookup raises and nothing is called. *)
Definition replace_attribute (desc : SensorEntityDescription)
    : Py.result (string -> unit_of_measurement -> Py.result SensorEntityDescription) :=
  Py.Raise Py.AttributeError.

Definition KEY_MODEL := "model".
Definition KEY_VALUE := "value".
Definition KEY_STATUS := "status".
Definition KEY_UNIT := "Unit".
Definition KEY_MB_MODEL := "mb_model".
Definition LIFE_SENSOR_KEY := "life".

Definition MB_MODELS_DETECT_SERIES : gset Z := {[ 48; 46 ]}.

Definition _SKIP_SIMPLE_SENSOR_KEYS : gset string := {[ "batt_volt"; "battery_voltage" ]}.

(** A key of [LIFE_SENSOR_CONFIG]: a model identifier or the word "default". *)
Inductive config_key : Type :=
  | KInt (n : Z)
  | KStr (s : string).

Record life_config : Type := mk_life_config {
  config_name : string;
  config_unit : unit_of_measurement
}.

Definition LIFE_SENSOR_CONFIG : list (config_key * life_config) :=
  [ (KInt 48, mk_life_config "Days to replace" DAYS);
    (KInt 46, mk_life_config "Days to replace" DAYS);
    (KStr "default", mk_life_config "Weeks to replace" WEEKS) ].

(* Arguments of [mk_description]:
   key, icon, name, device_class, state_class, native_unit_of_measurement,
   suggested_display_precision, entity_category,
   entity_registry_enabled_default, options. *)

Definition _TIMESTAMP_DESCRIPTIONS : list SensorEntityDescription :=
  [ mk_description "last_seen" (Some "mdi:home-clock") "Last Seen"
      (Some TIMESTAMP) None None None None true None;
    mk_description "last_test_time" (Some "mdi:home-clock") "Last Test Time"
      (Some TIMESTAMP) None None None None true None;
    mk_description "iaq_last_test_time" (Some "mdi:home-clock") "IAQ Last Test Time"
      (Some TIMESTAMP) None None None None true None ].

Definition _SENSOR_DESCRIPTIONS : list SensorEntityDescription :=
  [ mk_description "overall_iaq_status" (Some "mdi:air-filter") "Overall Air Quality"
      (Some ENUM) None None None None true
      (Some ["Very Bad"; "Bad"; "Moderate"; "Good"]);
    mk_description "smoke_level" (Some "mdi:smoke") "Smoke Level"
      None (Some MEASUREMENT) None None None true None;
    mk_description "co_level" (Some "mdi:molecule-co") "CO Level"
      None (Some MEASUREMENT) None None None true None;
    mk_description "batt_volt" (Some "mdi:battery") "Battery Voltage"
      (Some VOLTAGE) (Some MEASUREMENT) (Some VOLT) (Some 2) None true None;
    mk_description LIFE_SENSOR_KEY (Some "mdi:calendar-clock") "Weeks to replace"
      None (Some MEASUREMENT) (Some WEEKS) None None true None;
    mk_description "ap_rssi" (Some "mdi:wifi-strength-3") "Signal strength"
      (Some SIGNAL_STRENGTH) (Some MEASUREMENT) (Some SIGNAL_STRENGTH_DECIBELS)
      None (Some DIAGNOSTIC) false None;
    mk_description "ssid" (Some "mdi:wifi") "SSID"
      None None None None (Some DIAGNOSTIC) false None;
    mk_description "alarm_interval" (Some "mdi:alarm-check") "Alarm Interval"
      None None None None (Some DIAGNOSTIC) true None;
    mk_description "alarm_reset_time" (Some "mdi:alarm-snooze") "Alarm Reset Time"
      None None None None (Some DIAGNOSTIC) true None;
    mk_description "battery_level" (Some "mdi:battery-high") "Battery Level"
      None (Some MEASUREMENT) None None (Some DIAGNOSTIC) true None;
    mk_description "battery_voltage" (Some "mdi:battery") "Battery Voltage"
      (Some VOLTAGE) (Some MEASUREMENT) (Some VOLT) (Some 2) (Some DIAGNOSTIC)
      true None;
    mk_description "checkin_interval" (Some "mdi:clock-check") "Checkin Interval"
      None (Some MEASUREMENT) (Some HOURS) None (Some DIAGNOSTIC) true None;
    mk_description "hold_alarm_time" (Some "mdi:alarm-plus") "Alarm Hold Time"
      None None None None (Some DIAGNOSTIC) true None;
    mk_description "rapid_temperature_variation_status"
      (Some "mdi:swap-vertical-variant") "Temperature Variation Status"
      None None None None (Some DIAGNOSTIC) true None;
    mk_description "temperature_variation_value"
      (Some "mdi:swap-vertical-variant") "Temperature Variation"
      None None None None (Some DIAGNOSTIC) true None;
    mk_description "temperature" (Some "mdi:home-thermometer") "Temperature"
      (Some TEMPERATURE) (Some MEASUREMENT) (Some FAHRENHEIT) None None true None ].

Definition _SENSOR_MEASUREMENT_DESCRIPTIONS : list SensorEntityDescription :=
  [ mk_description "iaq_temperature" None "Indoor Temperature"
      (Some TEMPERATURE) (Some MEASUREMENT) None None None true None;
    mk_description "humidity" None "Humidity"
      (Some HUMIDITY) (Some MEASUREMENT) None None None true None;
    mk_description "hpa" None "Air Pressure"
      (Some ATMOSPHERIC_PRESSURE) (Some MEASUREMENT) None None None true None;
    mk_description "tvoc" None "Total VOC"
      (Some VOLATILE_ORGANIC_COMPOUNDS_PARTS) (Some MEASUREMENT) None None None
      true None;
    mk_description "iaq" None "Indoor Air Quality"
      (Some AQI) (Some MEASUREMENT) None None None true None;
    mk_description "co2" None "COâ‚‚ Level"
      (Some CO2) (Some MEASUREMENT) None None None true None ].

(** Every field descriptor of the platform. *)
Definition all_descriptions : list SensorEntityDescription :=
  _TIMESTAMP_DESCRIPTIONS ++ _SENSOR_DESCRIPTIONS ++ _SENSOR_MEASUREMENT_DESCRIPTIONS.

End Catalog.

(** ** The value renderers

    Every accessor reads [self.kidde_device] and [self.entity_description],
    which [KiddeEntity] (entity.py, not among the sources) provides: the raw
    data of the entity's device in the coordinator and the descriptor the
    entity was created with.  Both are arguments here. *)

Module Render.
Import Py Catalog.

(** [KiddeSensorTimestampEntity.native_value] *)
Definition timestamp_native_value (kidde_device : gmap string value)
    (entity_description : SensorEntityDescription)
    : result (option Datetime.datetime) :=
  let value := get kidde_device (key entity_description) in
  match value with
  | PNone => Ret None
  | PStr s =>
      let stripped := Str.split_head "." (Str.strip "Z" s) in
      match Datetime.strptime stripped with
      | Ret dt => Ret (Some (Datetime.replace_tzinfo dt Datetime.UTC))
      | Raise ValueError => Ret None
      | Raise e => Raise e
      end
  | _ => Raise AttributeError          (* no attribute [strip] *)
  end.

(** [v == k] for a key [k] of [LIFE_SENSOR_CONFIG]. *)
Definition key_matches (v : value) (k : config_key) : bool :=
  match k with
  | KInt n => match as_int v with Some m => m =? n | None => false end
  | KStr s => match v with PStr t => String.eqb t s | _ => false end
  end.

(** The entry of the first key equal to [v]. *)
Definition config_lookup (table : list (config_key * life_config)) (v : value)
    : option life_config :=
  snd <$> List.find (fun kc => key_matches v (fst kc)) table.

(** [table.get(v, dflt)]; an unhashable [v] raises. *)
Definition config_get (table : list (config_key * life_config)) (v : value)
    (dflt : life_config) : result life_config :=
  if hashable v then Ret (default dflt (config_lookup table v))
  else Raise TypeError.

(** [table[v]] *)
Definition config_subscript (table : list (config_key * life_config)) (v : value)
    : result life_config :=
  if hashable v then
    match config_lookup table v with
    | Some c => Ret c
    | None => Raise KeyError
    end
  else Raise TypeError.

(** [KiddeSensorLifeEntity._model_config] *)
Definition _model_config (kidde_device : gmap string value) : result life_config :=
  let device_identifier := get_default kidde_device KEY_MB_MODEL (PStr "default") in
  bind (config_subscript LIFE_SENSOR_CONFIG (PStr "default"))
       (fun dflt => config_get LIFE_SENSOR_CONFIG device_identifier dflt).

(** [KiddeSensorLifeEntity.entity_description], over the description the
    entity was created with. *)
Definition life_entity_description (kidde_device : gmap string value)
    (base_desc : SensorEntityDescription) : result SensorEntityDescription :=
  bind (_model_config kidde_device)
       (fun config =>
          bind (replace_attribute base_desc)
               (fun replace => replace (config_name config) (config_unit config))).

(** [KiddeSensorLifeEntity.native_value] *)
Definition life_native_value (kidde_device : gmap string value) : result value :=
  Ret (get kidde_device LIFE_SENSOR_KEY).

(** [KiddeSensorEntity.native_value] *)
Definition sensor_native_value (kidde_device : gmap string value)
    (entity_description : SensorEntityDescription) : result value :=
  Ret (get kidde_device (key entity_description)).

(** [KiddeSensorMeasurementEntity.native_value] *)
Definition measurement_native_value (kidde_device : gmap string value)
    (entity_description : SensorEntityDescription) : result value :=
  let entity_dict := get kidde_device (key entity_description) in
  match entity_dict with
  | PDict d => Ret (get d KEY_VALUE)
  | _ => Ret PNone
  end.

(** The [match entity_unit] statement. *)
Definition unit_of_code (entity_unit : string) : option unit_of_measurement :=
  if String.eqb entity_unit "C" then Some CELSIUS
  else if String.eqb entity_unit "F" then Some FAHRENHEIT
  else if String.eqb entity_unit "%RH" then Some PERCENTAGE
  else if String.eqb entity_unit "HPA" then Some PA
  else if String.eqb entity_unit "PPB" then Some CONCENTRATION_PARTS_PER_BILLION
  else if String.eqb entity_unit "PPM" then Some CONCENTRATION_PARTS_PER_MILLION
  else if String.eqb entity_unit "V" then Some VOLT
  else None.

(** [KiddeSensorMeasurementEntity.native_unit_of_measurement] *)
Definition measurement_native_unit_of_measurement (kidde_device : gmap string value)
    (entity_description : SensorEntityDescription)
    : result (option unit_of_measurement) :=
  let entity_dict := get kidde_device (key entity_description) in
  match entity_dict with
  | PDict d =>
      match get_default d KEY_UNIT (PStr "") with
      | PStr u => Ret (unit_of_code (Str.upper u))
      | _ => Raise AttributeError      (* no attribute [upper] *)
      end
  | _ => Ret None
  end.

(** [KiddeSensorMeasurementEntity.extra_state_attributes] *)
Definition measurement_extra_state_attributes (kidde_device : gmap string value)
    (entity_description : SensorEntityDescription) : result (gmap string value) :=
  let entity_dict := get kidde_device (key entity_description) in
  match entity_dict with
  | PDict d => Ret {[ "Status" := get d KEY_STATUS ]}
  | _ => Ret {[ "Status" := PNone ]}
  end.

End Render.

(** ** Device enumeration *)

Module Setup.
Import Py Catalog.

(** Modelled from the spec: the base class [KiddeEntity] (entity.py) is not
    among the sources.  A rendered sensor "combin[es] one Field Descriptor +
    one Device Raw Data snapshot": creating an entity of one of the four
    classes records the device identifier and the descriptor; the
    coordinator every entity shares is left out. *)
Inductive entity : Type :=
  | KiddeSensorTimestampEntity (device_id : Z) (d : SensorEntityDescription)
  | KiddeSensorLifeEntity (device_id : Z) (d : SensorEntityDescription)
  | KiddeSensorEntity (device_id : Z) (d : SensorEntityDescription)
  | KiddeSensorMeasurementEntity (device_id : Z) (d : SensorEntityDescription).

Definition entity_device (e : entity) : Z :=
  match e with
  | KiddeSensorTimestampEntity i _ | KiddeSensorLifeEntity i _
  | KiddeSensorEntity i _ | KiddeSensorMeasurementEntity i _ => i
  end.

Definition entity_description (e : entity) : SensorEntityDescription :=
  match e with
  | KiddeSensorTimestampEntity _ d | KiddeSensorLifeEntity _ d
  | KiddeSensorEntity _ d | KiddeSensorMeasurementEntity _ d => d
  end.

Definition entity_key (e : entity) : string := key (entity_description e).

(** [next((desc for desc in _SENSOR_DESCRIPTIONS if desc.key == LIFE_SENSOR_KEY), None)] *)
Definition life_description : option SensorEntityDescription :=
  List.find (fun desc => String.eqb (key desc) LIFE_SENSOR_KEY) _SENSOR_DESCRIPTIONS.

(** A loop [for d in descs: if d.key in device_data: sensors.append(mk(device_id, d))]. *)
Fixpoint presence_loop (mk : Z -> SensorEntityDescription -> entity)
    (device_id : Z) (device_data : gmap string value)
    (descs : list SensorEntityDescription) (sensors : list entity) : list entity :=
  match descs with
  | [] => sensors
  | entity_description :: rest =>
      if contains device_data (key entity_description)
      then presence_loop mk device_id device_data rest
             (sensors ++ [mk device_id entity_description])
      else presence_loop mk device_id device_data rest sensors
  end.

(** The loop over [_SENSOR_DESCRIPTIONS]. *)
Fixpoint sensor_loop (device_id : Z) (device_data : gmap string value)
    (mb_model : value) (descs : list SensorEntityDescription)
    (sensors : list entity) : result (list entity) :=
  match descs with
  | [] => Ret sensors
  | entity_description :: rest =>
      if String.eqb (key entity_description) LIFE_SENSOR_KEY
      then sensor_loop device_id device_data mb_model rest sensors
      else
        bind (if bool_decide (key entity_description ∈ _SKIP_SIMPLE_SENSOR_KEYS)
              then in_int_set mb_model MB_MODELS_DETECT_SERIES
              else Ret false)
          (fun skip =>
             if skip then sensor_loop device_id device_data mb_model rest sensors
             else if contains device_data (key entity_description)
             then sensor_loop device_id device_data mb_model rest
                    (sensors ++ [KiddeSensorEntity device_id entity_description])
             else sensor_loop device_id device_data mb_model rest sensors)
  end.

(** The body of the loop over the devices. *)
Definition device_sensors (device_id : Z) (device_data : gmap string value)
    (sensors : list entity) : result (list entity) :=
  let mb_model := get device_data KEY_MB_MODEL in
  let sensors := presence_loop KiddeSensorTimestampEntity device_id device_data
                   _TIMESTAMP_DESCRIPTIONS sensors in
  let sensors :=
    match life_description with
    | Some desc =>
        if contains device_data LIFE_SENSOR_KEY
        then sensors ++ [KiddeSensorLifeEntity device_id desc]
        else sensors
    | None => sensors
    end in
  bind (sensor_loop device_id device_data mb_model _SENSOR_DESCRIPTIONS sensors)
    (fun sensors =>
       Ret (presence_loop KiddeSensorMeasurementEntity device_id device_data
              _SENSOR_MEASUREMENT_DESCRIPTIONS sensors)).

Fixpoint device_loop (devices : list (Z * gmap string value))
    (sensors : list entity) : result (list entity) :=
  match devices with
  | [] => Ret sensors
  | (device_id, device_data) :: rest =>
      bind (device_sensors device_id device_data sensors) (device_loop rest)
  end.

(** [async_setup_entry]: the list handed to [async_add_devices], for the
    items of [coordinator.data.devices] in their order. *)
Definition async_setup_entry (devices : list (Z * gmap string value))
    : result (list entity) :=
  device_loop devices [].

End Setup.

(** ** What enumeration is expected to produce

    The closed forms the loops of [async_setup_entry] are compared with. *)

Module Expected.
Import Py Catalog Setup.

(** [mb_model in MB_MODELS_DETECT_SERIES], for a hashable identifier. *)
Definition in_detect_series (device_data : gmap string value) : bool :=
  match as_int (get device_data KEY_MB_MODEL) with
  | Some n => bool_decide (n ∈ MB_MODELS_DETECT_SERIES)
  | None => false
  end.

(** The skip-set rule: a legacy voltage field of a DETECT series device. *)
Definition suppressed (device_data : gmap string value) (k : string) : bool :=
  bool_decide (k ∈ _SKIP_SIMPLE_SENSOR_KEYS) && in_detect_series device_data.

Definition present (device_data : gmap string value)
    (d : SensorEntityDescription) : bool :=
  contains device_data (key d).

(** The descriptions the loop over [_SENSOR_DESCRIPTIONS] keeps. *)
Definition kept (device_data : gmap string value)
    (d : SensorEntityDescription) : bool :=
  negb (String.eqb (key d) LIFE_SENSOR_KEY)
  && negb (suppressed device_data (key d))
  && present device_data d.

Definition life_entities (device_id : Z) (device_data : gmap string value)
    : list entity :=
  match life_description with
  | Some desc =>
      if contains device_data LIFE_SENSOR_KEY
      then [KiddeSensorLifeEntity device_id desc] else []
  | None => []
  end.

Definition device_entities (device_id : Z) (device_data : gmap string value)
    : list entity :=
  (KiddeSensorTimestampEntity device_id
     <$> filter (present device_data) _TIMESTAMP_DESCRIPTIONS)
  ++ life_entities device_id device_data
  ++ (KiddeSensorEntity device_id
        <$> filter (kept device_data) _SENSOR_DESCRIPTIONS)
  ++ (KiddeSensorMeasurementEntity device_id
        <$> filter (present device_data) _SENSOR_MEASUREMENT_DESCRIPTIONS).

(** The model identifier can be hashed: it is absent or a scalar. *)
Definition model_identifier_ok (device_data : gmap string value) : Prop :=
  hashable (get device_data KEY_MB_MODEL) = true.

(** A description the loop over [_SENSOR_DESCRIPTIONS] does not pass over
    as the life field. *)
Definition not_life (d : SensorEntityDescription) : bool :=
  negb (String.eqb (key d) LIFE_SENSOR_KEY).

(** Every key a device can get a sensor for, in the order of creation. *)
Definition creation_keys : list string :=
  (key <$> _TIMESTAMP_DESCRIPTIONS)
  ++ [LIFE_SENSOR_KEY]
  ++ (key <$> filter not_life _SENSOR_DESCRIPTIONS)
  ++ (key <$> _SENSOR_MEASUREMENT_DESCRIPTIONS).

(** The device and field a sensor stands for. *)
Definition sensor_id (e : entity) : Z * string := (entity_device e, entity_key e).

(** The field is outside the skip set. *)
Definition unskipped (d : SensorEntityDescription) : Prop :=
  bool_decide (key d ∈ _SKIP_SIMPLE_SENSOR_KEYS) = false.

(** Some sensor of the list belongs to device [device_id] and field [F]. *)
Definition sensor_exists (sensors : list entity) (device_id : Z)
    (F : SensorEntityDescription) : Prop :=
  ∃ e, e ∈ sensors ∧ entity_device e = device_id ∧ entity_description e = F.

End Expected.

(** ** Notions the properties are stated with *)

Module Notions.
Import Py Catalog.

(** Two characters are the same letter, whatever their case. *)
Definition char_eqb_ignore_case (a b : ascii) : bool :=
  Ascii.eqb a b
  || (Str.is_lower a && (nat_of_ascii b =? nat_of_ascii a - 32)%nat)
  || (Str.is_lower b && (nat_of_ascii a =? nat_of_ascii b - 32)%nat).

(** Two strings differ at most in the case of their letters. *)
Fixpoint eqb_ignore_case (s t : string) : bool :=
  match s, t with
  | EmptyString, EmptyString => true
  | String a s', String b t' => char_eqb_ignore_case a b && eqb_ignore_case s' t'
  | _, _ => false
  end.

(** The unit codes of the vendor and the units they stand for. *)
Definition unit_table : list (string * unit_of_measurement) :=
  [ ("C", CELSIUS); ("F", FAHRENHEIT); ("%RH", PERCENTAGE); ("HPA", PA);
    ("PPB", CONCENTRATION_PARTS_PER_BILLION);
    ("PPM", CONCENTRATION_PARTS_PER_MILLION); ("V", VOLT) ].

(** A string neither starts nor ends with the character. *)
Definition bare (c : ascii) (s : string) : Prop :=
  (∀ r, s ≠ String c r) ∧ (∀ r, s ≠ r +:+ String c EmptyString).

(** What a timestamp field shows for the text left after stripping: the
    parsed instant tagged UTC, or nothing when the text does not parse. *)
Definition shown_instant (text : string) : option Datetime.datetime :=
  match Datetime.strptime (Str.split_head "." text) with
  | Ret dt => Some (Datetime.replace_tzinfo dt Datetime.UTC)
  | Raise _ => None
  end.




End Notions.

(** ** The timestamp renderer as the specification words it

    "If absent, produce unknown.  Otherwise: strip any trailing
    zone-designator character, discard any fractional-second suffix (content
    after the first period), then parse the remaining prefix strictly against
    the pattern, tagging the result as UTC.  If parsing fails, produce
    unknown." *)

Module SpecWording.

Definition timestamp_render (raw : option string) : option Datetime.datetime :=
  match raw with
  | None => None
  | Some s =>
      match Datetime.strptime (Str.split_head "." (Str.rstrip "Z" s)) with
      | Py.Ret dt => Some (Datetime.replace_tzinfo dt Datetime.UTC)
      | Py.Raise _ => None
      end
  end.

End SpecWording.

(** ** Sample data *)

Module Samples.
Import Py Catalog.

Definition last_seen : SensorEntityDescription :=
  mk_description "last_seen" (Some "mdi:home-clock") "Last Seen"
    (Some TIMESTAMP) None None None None true None.

Definition batt_volt : SensorEntityDescription :=
  mk_description "batt_volt" (Some "mdi:battery") "Battery Voltage"
    (Some VOLTAGE) (Some MEASUREMENT) (Some VOLT) (Some 2) None true None.

Definition life : SensorEntityDescription :=
  mk_description LIFE_SENSOR_KEY (Some "mdi:calendar-clock") "Weeks to replace"
    None (Some MEASUREMENT) (Some WEEKS) None None true None.

Definition hpa : SensorEntityDescription :=
  mk_description "hpa" None "Air Pressure"
    (Some ATMOSPHERIC_PRESSURE) (Some MEASUREMENT) None None None true None.

(** A DETECT series detector. *)
Definition detect_device : gmap string value :=
  {[ "mb_model" := PInt 46; "batt_volt" := PInt 0; "life" := PInt 300;
     "last_seen" := PStr "2024-06-14T03:40:39.667544824Z" ]}.

Definition humidity : SensorEntityDescription :=
  mk_description "humidity" None "Humidity"
    (Some HUMIDITY) (Some MEASUREMENT) None None None true None.

Definition pressure_reading : gmap string value :=
  {[ "value" := PInt 1013; "status" := PStr "Good"; "Unit" := PStr "Hpa" ]}.

(** An older detector with air-quality readings and no model identifier. *)
Definition legacy_device : gmap string value :=
  {[ "batt_volt" := PInt 3; "life" := PInt 12;
     "last_test_time" := PStr "not-a-date";
     "hpa" := PDict pressure_reading;
     "humidity" := PStr "wet" ]}.

(** A detector that reports a model identifier outside the table. *)
Definition other_model_device : gmap string value :=
  {[ "mb_model" := PInt 99; "life" := PInt 40 ]}.

Definition devices : list (Z * gmap string value) :=
  [ (1, detect_device); (2, legacy_device) ].

(** A device whose last-seen stamp carries a zone designator at both ends. *)
Definition zoned_device : gmap string value :=
  {[ "last_seen" := PStr "Z2024-06-22T16:00:19Z" ]}.


(** A device whose model identifier is a list. *)
Definition list_model_device : gmap string value :=
  {[ "mb_model" := PList [PInt 46]; "last_seen" := PStr "2024-06-22T16:00:19Z" ]}.

End Samples.

(** ** Reading a sensor

    The host framework reads [native_value] of whichever entity it holds;
    the class of the entity selects the accessor. *)

Module Read.
Import Py Catalog Setup.

(** What a value read hands to the framework: a raw value ([None] among
    them) or an instant. *)
Inductive shown : Type :=
  | Raw (v : value)
  | Instant (dt : Datetime.datetime).

Definition native_value (e : entity) (kidde_device : gmap string value)
    : result shown :=
  match e with
  | KiddeSensorTimestampEntity _ d =>
      bind (Render.timestamp_native_value kidde_device d)
           (fun o => Ret (match o with Some dt => Instant dt | None => Raw PNone end))
  | KiddeSensorLifeEntity _ _ =>
      bind (Render.life_native_value kidde_device) (fun v => Ret (Raw v))
  | KiddeSensorEntity _ d =>
      bind (Render.sensor_native_value kidde_device d) (fun v => Ret (Raw v))
  | KiddeSensorMeasurementEntity _ d =>
      bind (Render.measurement_native_value kidde_device d) (fun v => Ret (Raw v))
  end.

(** [KiddeSensorMeasurementEntity.state_class] *)
Definition measurement_state_class : SensorStateClass := MEASUREMENT.

End Read.

(** ** Writing a stamp

    The text [strftime("%Y-%m-%dT%H:%M:%S")] gives for an instant, followed
    by [rest]: four digits for the year and two for every other field. *)

Module Iso.

Definition digit_char (d : Z) : ascii := ascii_of_nat (48 + Z.to_nat d).

Definition pad2 (v : Z) (rest : string) : string :=
  String (digit_char (v / 10)) (String (digit_char (v mod 10)) rest).

Definition pad4 (v : Z) (rest : string) : string :=
  String (digit_char (v / 1000)) (String (digit_char (v / 100 mod 10))
    (String (digit_char (v / 10 mod 10)) (String (digit_char (v mod 10)) rest))).

Definition isoformat (y m d hh mi ss : Z) (rest : string) : string :=
  pad4 y (String "-" (pad2 m (String "-" (pad2 d (String "T"
    (pad2 hh (String ":" (pad2 mi (String ":" (pad2 ss rest)))))))))).

End Iso.

(** ** Notions of the further properties *)

Module Further.
Import Py Catalog Setup Expected.

(** Two device entries carry the same identifier, the same keys and the
    same model identifier; the other values may differ. *)
Definition same_shape (a b : Z * gmap string value) : Prop :=
  a.1 = b.1 ∧ dom a.2 = dom b.2
  ∧ get a.2 KEY_MB_MODEL = get b.2 KEY_MB_MODEL.

(** The descriptor of a sensor comes from the list its class renders. *)
Definition class_matches (e : entity) : Prop :=
  match e with
  | KiddeSensorTimestampEntity _ d => d ∈ _TIMESTAMP_DESCRIPTIONS
  | KiddeSensorLifeEntity _ d => life_description = Some d
  | KiddeSensorEntity _ d =>
      d ∈ _SENSOR_DESCRIPTIONS ∧ key d ≠ LIFE_SENSOR_KEY
  | KiddeSensorMeasurementEntity _ d => d ∈ _SENSOR_MEASUREMENT_DESCRIPTIONS
  end.

(** The days of the months of a common year. *)
Definition month_lengths : list Z := [31; 28; 31; 30; 31; 30; 31; 31; 30; 31; 30; 31].

(** A leap year of the Gregorian calendar. *)
Definition leap_year (y : Z) : Prop := (4 | y) ∧ ((100 | y) → (400 | y)).

(** A day of the calendar, in the years a [datetime] can hold. *)
Definition real_date (y m d : Z) : Prop :=
  1 ≤ y ≤ 9999 ∧ 1 ≤ m ∧ 1 ≤ d
  ∧ ∃ len, month_lengths !! Z.to_nat (m - 1) = Some len
           ∧ (d ≤ len ∨ (m = 2 ∧ d = 29 ∧ leap_year y)).

(** A time of day to the second, leap seconds left out. *)
Definition real_time (hh mi ss : Z) : Prop :=
  0 ≤ hh ≤ 23 ∧ 0 ≤ mi ≤ 59 ∧ 0 ≤ ss ≤ 59.

(** An instant of the calendar, to the second, in UTC. *)
Definition well_formed (dt : Datetime.datetime) : Prop :=
  real_date (Datetime.year dt) (Datetime.month dt) (Datetime.day dt)
  ∧ real_time (Datetime.hour dt) (Datetime.minute dt) (Datetime.second dt)
  ∧ Datetime.microsecond dt = 0
  ∧ Datetime.tz dt = Some Datetime.UTC.

(** The sample devices after a refresh: same keys, other values. *)
Definition refreshed_devices : list (Z * gmap string value) :=
  [ (1, {[ "mb_model" := PInt 46; "batt_volt" := PInt 0; "life" := PInt 299;
           "last_seen" := PStr "2024-06-15T03:40:39.1Z" ]});
    (2, {[ "batt_volt" := PFloat (FFin 25 (-3)); "life" := PInt 11;
           "last_test_time" := PNone;
           "hpa" := PStr "n/a";
           "humidity" := PDict ∅ ]}) ].

(** The sensors of the sample devices. *)
Definition sample_sensors : list entity :=
  [ KiddeSensorTimestampEntity 1 Samples.last_seen;
    KiddeSensorLifeEntity 1 Samples.life;
    KiddeSensorTimestampEntity 2
      (mk_description "last_test_time" (Some "mdi:home-clock")
         "Last Test Time" (Some TIMESTAMP) None None None None true None);
    KiddeSensorLifeEntity 2 Samples.life;
    KiddeSensorEntity 2 Samples.batt_volt;
    KiddeSensorMeasurementEntity 2 Samples.humidity;
    KiddeSensorMeasurementEntity 2 Samples.hpa ].

End Further.

(** * Properties *)

Section EnumerationFacts.
Import Py Catalog Setup Expected.

Lemma filter_cons_bool {A} (f : A → bool) (x : A) (l : list A) :
  filter f (x :: l) = if f x then x :: filter f l else filter f l.
Proof.
  destruct (f x) eqn:E.
  - rewrite filter_cons_True; [done | rewrite E; exact I].
  - rewrite filter_cons_False; [done | rewrite E; intros []].
Qed.

Lemma presence_loop_filter mk device_id device_data descs sensors :
  presence_loop mk device_id device_data descs sensors
  = sensors ++ (mk device_id <$> filter (present device_data) descs).
Proof.
  revert sensors.
  induction descs as [|d descs IH]; intros sensors; simpl.
  - by rewrite app_nil_r.
  - rewrite filter_cons_bool. unfold present at 1.
    destruct (contains device_data (key d)); simpl.
    + rewrite IH. by rewrite <- app_assoc.
    + apply IH.
Qed.

Lemma in_int_set_hashable device_data :
  model_identifier_ok device_data →
  in_int_set (get device_data KEY_MB_MODEL) MB_MODELS_DETECT_SERIES
  = Ret (in_detect_series device_data).
Proof.
  unfold model_identifier_ok, in_int_set, in_detect_series.
  by intros ->.
Qed.

Lemma sensor_loop_filter device_id device_data descs sensors :
  model_identifier_ok device_data →
  sensor_loop device_id device_data (get device_data KEY_MB_MODEL) descs sensors
  = Ret (sensors ++ (KiddeSensorEntity device_id
                       <$> filter (kept device_data) descs)).
Proof.
  intros Hok. revert sensors.
  induction descs as [|d descs IH]; intros sensors; simpl.
  - by rewrite app_nil_r.
  - rewrite filter_cons_bool. unfold kept at 1, suppressed, present.
    destruct (String.eqb (key d) LIFE_SENSOR_KEY); simpl; [apply IH|].
    destruct (bool_decide (key d ∈ _SKIP_SIMPLE_SENSOR_KEYS)); simpl.
    + rewrite (in_int_set_hashable _ Hok). simpl.
      destruct (in_detect_series device_data); simpl; [apply IH|].
      destruct (contains device_data (key d)); simpl; [|apply IH].
      rewrite IH. by rewrite <- app_assoc.
    + destruct (contains device_data (key d)); simpl; [|apply IH].
      rewrite IH. by rewrite <- app_assoc.
Qed.

Lemma device_sensors_entities device_id device_data sensors :
  model_identifier_ok device_data →
  device_sensors device_id device_data sensors
  = Ret (sensors ++ device_entities device_id device_data).
Proof.
  intros Hok. unfold device_sensors, device_entities, life_entities.
  cbv zeta. rewrite (sensor_loop_filter _ _ _ _ Hok).
  unfold bind. rewrite !presence_loop_filter.
  destruct life_description as [desc|];
    [destruct (contains device_data LIFE_SENSOR_KEY)|];
    by rewrite <- ?app_assoc, ?app_nil_r.
Qed.

Lemma device_loop_entities devices sensors :
  Forall (λ dv, model_identifier_ok dv.2) devices →
  device_loop devices sensors
  = Ret (sensors ++ mjoin ((λ dv, device_entities dv.1 dv.2) <$> devices)).
Proof.
  intros Hok. revert sensors.
  induction Hok as [|[device_id device_data] devices Hd _ IH]; intros sensors; simpl.
  - by rewrite app_nil_r.
  - rewrite (device_sensors_entities _ _ _ Hd). simpl.
    rewrite IH. by rewrite <- app_assoc.
Qed.

End EnumerationFacts.

(** Facts about the three fixed lists, each settled by evaluation. *)
Section CatalogFacts.
Import Py Catalog Setup Expected.

Ltac each_description :=
  repeat first [ apply Forall_nil_2 | apply Forall_cons_2 ].

Lemma timestamp_descriptions_unskipped : Forall unskipped _TIMESTAMP_DESCRIPTIONS.
Proof. each_description; vm_compute; reflexivity. Qed.

Lemma measurement_descriptions_unskipped :
  Forall unskipped _SENSOR_MEASUREMENT_DESCRIPTIONS.
Proof. each_description; vm_compute; reflexivity. Qed.

Lemma life_description_eq :
  ∃ desc, life_description = Some desc ∧ key desc = LIFE_SENSOR_KEY
          ∧ desc ∈ _SENSOR_DESCRIPTIONS ∧ unskipped desc.
Proof.
  eexists. split; [reflexivity|]. split; [reflexivity|]. split.
  - apply list_elem_of_In. simpl. tauto.
  - vm_compute; reflexivity.
Qed.

Lemma life_description_unique :
  Forall (λ d, String.eqb (key d) LIFE_SENSOR_KEY = true → life_description = Some d)
         _SENSOR_DESCRIPTIONS.
Proof.
each_description; cbv beta; intros H; vm_compute in H;
  try discriminate H; reflexivity.
Qed.

(** No two descriptors of the platform share a key. *)
Lemma catalog_keys_NoDup : NoDup (key <$> all_descriptions).
Proof. apply (bool_decide_unpack _). vm_compute. exact I. Qed.

End CatalogFacts.

Section EnumerationProperties.
Import Py Catalog Setup Expected.

Lemma unskipped_not_suppressed device_data d :
  unskipped d → suppressed device_data (key d) = false.
Proof. unfold unskipped, suppressed. by intros ->. Qed.

Lemma present_is_Some device_data d :
  present device_data d ↔ is_Some (device_data !! key d).
Proof. unfold present, contains. apply bool_decide_spec. Qed.

Lemma device_entities_device device_id device_data e :
  e ∈ device_entities device_id device_data → entity_device e = device_id.
Proof.
unfold device_entities, life_entities.
rewrite !elem_of_app, !list_elem_of_fmap.
intros [(d & -> & _) | [H | [(d & -> & _) | (d & -> & _)]]]; try done.
destruct life_description; [destruct (contains _ _)|];
  rewrite ?list_elem_of_singleton in H; by subst || by apply elem_of_nil in H.
Qed.

(** The sensors of one device, field by field. *)
Lemma device_entities_description device_id device_data F :
  F ∈ all_descriptions →
  (∃ e, e ∈ device_entities device_id device_data ∧ entity_description e = F)
  ↔ is_Some (device_data !! key F) ∧ suppressed device_data (key F) = false.
Proof.
intros HF. rewrite <- present_is_Some. split.
- intros (e & He & <-). revert He. unfold device_entities.
  rewrite !elem_of_app, !list_elem_of_fmap.
  intros [(d & -> & Hd) | [H | [(d & -> & Hd) | (d & -> & Hd)]]]; simpl.
  + apply list_elem_of_filter in Hd as [Hp Hd]. split; [done|].
    apply unskipped_not_suppressed.
    by apply (proj1 (Forall_forall _ _) timestamp_descriptions_unskipped).
  + unfold life_entities in H.
    destruct life_description_eq as (desc & Hl & Hk & _ & Hus).
    rewrite Hl in H.
    destruct (contains device_data LIFE_SENSOR_KEY) eqn:Hc;
      [|by apply elem_of_nil in H].
    apply list_elem_of_singleton in H as ->. simpl. split.
    * unfold present. rewrite Hk, Hc. exact I.
    * by apply unskipped_not_suppressed.
  + apply list_elem_of_filter in Hd as [Hk Hd]. unfold kept in Hk.
    apply andb_prop_elim in Hk as [Hk Hp].
    apply andb_prop_elim in Hk as [_ Hs].
    split; [done|]. by destruct (suppressed device_data (key d)).
  + apply list_elem_of_filter in Hd as [Hp Hd]. split; [done|].
    apply unskipped_not_suppressed.
    by apply (proj1 (Forall_forall _ _) measurement_descriptions_unskipped).
- intros [Hp Hs]. unfold all_descriptions in HF.
  rewrite !elem_of_app in HF. unfold device_entities.
  destruct HF as [HF | [HF | HF]].
  + exists (KiddeSensorTimestampEntity device_id F). split; [|done].
    rewrite elem_of_app. left. apply list_elem_of_fmap_2.
    by apply list_elem_of_filter.
  + destruct (String.eqb (key F) LIFE_SENSOR_KEY) eqn:Hk.
    * exists (KiddeSensorLifeEntity device_id F). split; [|done].
      rewrite !elem_of_app. right; left. unfold life_entities.
      rewrite (proj1 (Forall_forall _ _) life_description_unique F HF Hk).
      apply String.eqb_eq in Hk. unfold present in Hp. rewrite Hk in Hp.
      destruct (contains device_data LIFE_SENSOR_KEY); [|done].
      by apply list_elem_of_singleton.
    * exists (KiddeSensorEntity device_id F). split; [|done].
      rewrite !elem_of_app. right; right; left. apply list_elem_of_fmap_2.
      apply list_elem_of_filter. split; [|done].
      unfold kept. rewrite Hk, Hs. simpl. done.
  + exists (KiddeSensorMeasurementEntity device_id F). split; [|done].
    rewrite !elem_of_app. right; right; right. apply list_elem_of_fmap_2.
    by apply list_elem_of_filter.
Qed.

Lemma items_functional {A B} (l : list (A * B)) x y1 y2 :
  NoDup l.*1 → (x, y1) ∈ l → (x, y2) ∈ l → y1 = y2.
Proof.
induction l as [|[a b] l IH]; simpl; intros Hnd H1 H2.
- by apply elem_of_nil in H1.
- apply NoDup_cons in Hnd as [Ha Hnd].
  apply elem_of_cons in H1 as [H1 | H1]; apply elem_of_cons in H2 as [H2 | H2].
  + congruence.
  + injection H1 as -> ->. destruct Ha.
    apply list_elem_of_fmap. by exists (a, y2).
  + injection H2 as -> ->. destruct Ha.
    apply list_elem_of_fmap. by exists (a, y1).
  + by apply IH.
Qed.

Lemma elem_of_all_entities (devices : list (Z * gmap string value)) e :
  e ∈ mjoin ((λ dv, device_entities dv.1 dv.2) <$> devices)
  ↔ ∃ device_id device_data,
      (device_id, device_data) ∈ devices ∧ e ∈ device_entities device_id device_data.
Proof.
rewrite list_elem_of_join. split.
- intros (l & He & Hl). apply list_elem_of_fmap in Hl as ([i d] & -> & Hin).
  by exists i, d.
- intros (i & d & Hin & He). exists (device_entities i d). split; [done|].
  apply list_elem_of_fmap. by exists (i, d).
Qed.

Lemma setup_entry_returns (devices : list (Z * gmap string value)) :
  Forall (λ dv, model_identifier_ok dv.2) devices →
  async_setup_entry devices
  = Ret (mjoin ((λ dv, device_entities dv.1 dv.2) <$> devices)).
Proof.
intros Hok. unfold async_setup_entry. by rewrite (device_loop_entities _ _ Hok).
Qed.

(** Among the sensors of all devices, those of one device are decided by
    that device's data alone. *)
Lemma sensor_exists_own_device (devices : list (Z * gmap string value))
    device_id device_data F :
  NoDup devices.*1 → (device_id, device_data) ∈ devices →
  sensor_exists (mjoin ((λ dv, device_entities dv.1 dv.2) <$> devices)) device_id F
  ↔ ∃ e, e ∈ device_entities device_id device_data ∧ entity_description e = F.
Proof.
intros Hnd Hin. unfold sensor_exists. split.
- intros (e & He & Hid & Hd). exists e. split; [|done].
  apply elem_of_all_entities in He as (i & d & Hin' & He).
  pose proof (device_entities_device _ _ _ He) as Hi.
  rewrite Hid in Hi. subst i.
  by rewrite (items_functional _ _ _ _ Hnd Hin Hin').
- intros (e & He & Hd). exists e. split; [|split; [|done]].
  + apply elem_of_all_entities. by exists device_id, device_data.
  + by apply device_entities_device in He.
Qed.

(** C1. Provided every model identifier is absent or a scalar, enumeration
    returns a list in which a sensor for device D and catalog field F exists
    if and only if F's key is present in D's raw data and the skip-set rule
    does not suppress it. *)
Theorem enumeration_sensor_iff_present (devices : list (Z * gmap string value)) :
  NoDup devices.*1 →
  Forall (λ dv, model_identifier_ok dv.2) devices →
  ∃ sensors,
    async_setup_entry devices = Ret sensors ∧
    ∀ device_id device_data F,
      (device_id, device_data) ∈ devices → F ∈ all_descriptions →
      (sensor_exists sensors device_id F
       ↔ is_Some (device_data !! key F)
         ∧ suppressed device_data (key F) = false).
Proof.
intros Hnd Hok. eexists. split; [by apply setup_entry_returns|].
intros device_id device_data F Hin HF.
rewrite (sensor_exists_own_device _ _ _ _ Hnd Hin).
by apply device_entities_description.
Qed.



Lemma creation_keys_NoDup : NoDup creation_keys.
Proof. apply (bool_decide_unpack _). vm_compute. exact I. Qed.

Lemma filter_sublist_impl {A} (P Q : A → bool) (l : list A) :
  (∀ x, P x → Q x) → filter P l `sublist_of` filter Q l.
Proof.
intros HPQ. induction l as [|a l IH]; [constructor|].
rewrite !filter_cons_bool. specialize (HPQ a).
destruct (P a), (Q a); simpl in HPQ.
- by apply sublist_skip.
- destruct (HPQ I).
- by apply sublist_cons.
- done.
Qed.

Lemma device_entities_keys device_id device_data :
  entity_key <$> device_entities device_id device_data `sublist_of` creation_keys.
Proof.
unfold device_entities, creation_keys. rewrite !fmap_app.
repeat apply sublist_app.
- rewrite <- list_fmap_compose. apply fmap_sublist, sublist_filter.
- unfold life_entities.
  destruct life_description_eq as (desc & -> & Hk & _).
  destruct (contains device_data LIFE_SENSOR_KEY); simpl.
  + unfold entity_key. simpl. rewrite Hk. done.
  + by apply sublist_cons.
- rewrite <- list_fmap_compose. apply fmap_sublist, filter_sublist_impl.
  intros d Hd. unfold kept in Hd.
  apply andb_prop_elim in Hd as [Hd _]. by apply andb_prop_elim in Hd as [Hd _].
- rewrite <- list_fmap_compose. apply fmap_sublist, sublist_filter.
Qed.

Lemma device_entities_sensor_id device_id device_data :
  sensor_id <$> device_entities device_id device_data
  = pair device_id <$> (entity_key <$> device_entities device_id device_data).
Proof.
rewrite <- list_fmap_compose. apply Forall_fmap_ext_1.
apply Forall_forall. intros e He. unfold sensor_id. simpl.
by rewrite (device_entities_device _ _ _ He).
Qed.

Lemma device_entities_NoDup device_id device_data :
  NoDup (sensor_id <$> device_entities device_id device_data).
Proof.
rewrite device_entities_sensor_id. apply (NoDup_fmap_2 _).
eapply sublist_NoDup; [apply creation_keys_NoDup | apply device_entities_keys].
Qed.

Lemma all_entities_NoDup (devices : list (Z * gmap string value)) :
  NoDup devices.*1 →
  NoDup (sensor_id <$> mjoin ((λ dv, device_entities dv.1 dv.2) <$> devices)).
Proof.
induction devices as [|[i d] devices IH]; simpl; intros Hnd; [constructor|].
apply NoDup_cons in Hnd as [Hi Hnd].
rewrite fmap_app. apply NoDup_app. split; [apply device_entities_NoDup|].
split; [|by apply IH].
intros x Hx Hx'. apply Hi.
apply list_elem_of_fmap in Hx as (e & -> & He).
apply list_elem_of_fmap in Hx' as (e' & Heq & He').
apply elem_of_all_entities in He' as (i' & d' & Hin & He').
apply device_entities_device in He, He'.
injection Heq as Hdev _. rewrite He, He' in Hdev. subst i'.
apply list_elem_of_fmap. by exists (i, d').
Qed.

Lemma filter_none {A} (P : A → Prop) `{∀ x, Decision (P x)} (l : list A) :
  (∀ y, y ∈ l → ¬ P y) → filter P l = [].
Proof.
induction l as [|a l IH]; intros Hl; [done|].
rewrite filter_cons_False; [|apply Hl, list_elem_of_here].
apply IH. intros y Hy. by apply Hl, list_elem_of_further.
Qed.

Lemma filter_unique {A B} `{EqDecision B} (f : A → B) (l : list A) (x : A) :
  NoDup (f <$> l) → x ∈ l → filter (λ y, f y = f x) l = [x].
Proof.
induction l as [|a l IH]; simpl; intros Hnd Hx; [by apply elem_of_nil in Hx|].
apply NoDup_cons in Hnd as [Ha Hnd].
apply elem_of_cons in Hx as [-> | Hx].
- rewrite filter_cons_True by done. f_equal.
  apply filter_none. intros y Hy Heq.
  apply Ha. rewrite <- Heq. by apply list_elem_of_fmap_2.
- rewrite filter_cons_False; [by apply IH|].
  intros Heq. apply Ha. rewrite Heq. by apply list_elem_of_fmap_2.
Qed.

(** C9. Provided every model identifier is absent or a scalar, enumeration
    returns a list in which no two sensors stand for the same device and
    field key; a device whose data hold the life key gets exactly one sensor
    for it, a [KiddeSensorLifeEntity], and none from the generic loop. *)
Theorem enumeration_no_duplicate_sensor (devices : list (Z * gmap string value)) :
  NoDup devices.*1 →
  Forall (λ dv, model_identifier_ok dv.2) devices →
  ∃ sensors,
    async_setup_entry devices = Ret sensors ∧
    NoDup (sensor_id <$> sensors) ∧
    ∀ device_id device_data,
      (device_id, device_data) ∈ devices →
      is_Some (device_data !! LIFE_SENSOR_KEY) →
      ∃ desc,
        life_description = Some desc ∧
        filter (λ e, sensor_id e = (device_id, LIFE_SENSOR_KEY)) sensors
        = [KiddeSensorLifeEntity device_id desc].
Proof.
intros Hnd Hok. eexists. split; [by apply setup_entry_returns|].
pose proof (all_entities_NoDup devices Hnd) as Hall.
split; [done|].
intros device_id device_data Hin Hlife.
destruct life_description_eq as (desc & Hl & Hk & _).
exists desc. split; [done|].
assert (sensor_id (KiddeSensorLifeEntity device_id desc)
        = (device_id, LIFE_SENSOR_KEY)) as <-.
{ unfold sensor_id, entity_key. simpl. by rewrite Hk. }
apply (filter_unique sensor_id); [done|].
apply elem_of_all_entities. exists device_id, device_data. split; [done|].
unfold device_entities. rewrite !elem_of_app. right; left.
unfold life_entities. rewrite Hl.
unfold contains. rewrite (bool_decide_eq_true_2 _ Hlife).
by apply list_elem_of_singleton.
Qed.

End EnumerationProperties.

Section StringFacts.
Import Str Notions.

Lemma lstrip_repeat c a s : lstrip c (repeat_char c a +:+ s) = lstrip c s.
Proof. induction a as [|a IH]; simpl; [done|]. by rewrite Ascii.eqb_refl. Qed.

Lemma lstrip_all c b : lstrip c (repeat_char c b) = "".
Proof. induction b as [|b IH]; simpl; [done|]. by rewrite Ascii.eqb_refl. Qed.

Lemma rstrip_all c b : rstrip c (repeat_char c b) = "".
Proof.
induction b as [|b IH]; simpl; [done|]. by rewrite IH, Ascii.eqb_refl.
Qed.

Lemma rstrip_app_repeat c s b : rstrip c (s +:+ repeat_char c b) = rstrip c s.
Proof.
induction s as [|x s IH]; simpl; [apply rstrip_all | by rewrite IH].
Qed.

Lemma lstrip_app_repeat c s b :
  ∃ b', lstrip c (s +:+ repeat_char c b) = lstrip c s +:+ repeat_char c b'.
Proof.
induction s as [|x s IH]; simpl.
- exists 0%nat. apply lstrip_all.
- destruct (Ascii.eqb x c); [apply IH | by exists b].
Qed.

(** Characters to strip, added at either end, leave the result unchanged. *)
Lemma strip_pad c a b s :
  strip c (repeat_char c a +:+ s +:+ repeat_char c b) = strip c s.
Proof.
unfold strip. rewrite lstrip_repeat.
destruct (lstrip_app_repeat c s b) as [b' ->]. apply rstrip_app_repeat.
Qed.

Lemma lstrip_decompose c s :
  ∃ a, s = repeat_char c a +:+ lstrip c s ∧ ∀ r, lstrip c s ≠ String c r.
Proof.
induction s as [|x s IH]; simpl.
- by exists 0%nat.
- destruct (Ascii.eqb x c) eqn:E.
  + apply Ascii.eqb_eq in E as ->. destruct IH as (a & Hs & Hn).
    exists (S a). split; [by rewrite Hs at 1 | done].
  + exists 0%nat. split; [done|]. intros r [= -> _].
    by rewrite Ascii.eqb_refl in E.
Qed.

Lemma append_singleton_inv r c x t :
  String x t = r +:+ String c "" →
  (r = "" ∧ x = c ∧ t = "") ∨ ∃ r', r = String x r' ∧ t = r' +:+ String c "".
Proof.
destruct r as [|y r]; simpl; intros [= -> ->]; [by left | right; by eexists].
Qed.

Lemma rstrip_decompose c s :
  ∃ b, s = rstrip c s +:+ repeat_char c b ∧ ∀ r, rstrip c s ≠ r +:+ String c "".
Proof.
induction s as [|x s IH]; simpl.
- exists 0%nat. split; [done|]. by intros [|y r].
- destruct IH as (b & Hs & Hn). destruct (rstrip c s) as [|y t] eqn:Hr.
  + destruct (Ascii.eqb x c) eqn:E.
    * apply Ascii.eqb_eq in E as ->. exists (S b). simpl. split.
      -- by rewrite Hs at 1.
      -- by intros [|y r].
    * exists b. split; [by rewrite Hs at 1|].
      intros r Hx. apply append_singleton_inv in Hx as [(_ & -> & _) | (r' & _ & Hx)].
      -- by rewrite Ascii.eqb_refl in E.
      -- by destruct r'.
  + exists b. split; [simpl; by rewrite Hs at 1|].
    intros r Hx. apply append_singleton_inv in Hx as [(_ & _ & [=]) | (r' & _ & Hx)].
    by apply (Hn r').
Qed.

Lemma rstrip_keeps_head c s :
  (∀ r, s ≠ String c r) → ∀ r, rstrip c s ≠ String c r.
Proof.
destruct s as [|x s]; simpl; intros Hs r; [done|].
assert (x ≠ c) as Hx by (intros ->; by apply (Hs s)).
destruct (rstrip c s); [destruct (Ascii.eqb x c)|]; [done| |]; by intros [= ->].
Qed.

(** [strip] removes a run of the character at either end and leaves a
    string that neither starts nor ends with it. *)
Lemma strip_decompose c s :
  ∃ a b, s = repeat_char c a +:+ strip c s +:+ repeat_char c b
         ∧ bare c (strip c s).
Proof.
destruct (lstrip_decompose c s) as (a & Hl & Hnl).
destruct (rstrip_decompose c (lstrip c s)) as (b & Hr & Hnr).
exists a, b. unfold strip, bare. split; [by rewrite <- Hr | split]; [|done].
by apply rstrip_keeps_head.
Qed.

End StringFacts.

Section CaseFacts.
Import Str Notions.

Lemma nat_of_ascii_inj a b : nat_of_ascii a = nat_of_ascii b → a = b.
Proof.
intros H. rewrite <- (ascii_nat_embedding a), <- (ascii_nat_embedding b).
by rewrite H.
Qed.

Lemma is_lower_spec c :
  is_lower c = true ↔ (97 ≤ nat_of_ascii c ≤ 122)%nat.
Proof.
unfold is_lower. rewrite andb_true_iff, !Nat.leb_le. reflexivity.
Qed.

Lemma nat_of_upper_char c :
  nat_of_ascii (upper_char c)
  = (if is_lower c then nat_of_ascii c - 32 else nat_of_ascii c)%nat.
Proof.
unfold upper_char. destruct (is_lower c); [|done].
apply nat_ascii_embedding. pose proof (nat_ascii_bounded c). lia.
Qed.

Lemma char_eqb_ignore_case_spec a b :
  char_eqb_ignore_case a b = true ↔ upper_char a = upper_char b.
Proof.
unfold char_eqb_ignore_case.
rewrite !orb_true_iff, !andb_true_iff, Ascii.eqb_eq, !Nat.eqb_eq, !is_lower_spec.
split.
- intros H. apply nat_of_ascii_inj. rewrite !nat_of_upper_char.
  destruct (is_lower a) eqn:Ea, (is_lower b) eqn:Eb;
    try apply is_lower_spec in Ea; try apply is_lower_spec in Eb;
    try (apply not_true_iff_false in Ea; rewrite is_lower_spec in Ea);
    try (apply not_true_iff_false in Eb; rewrite is_lower_spec in Eb);
    destruct H as [[-> | H] | H]; lia.
- intros H. apply (f_equal nat_of_ascii) in H. rewrite !nat_of_upper_char in H.
  destruct (is_lower a) eqn:Ea, (is_lower b) eqn:Eb;
    try apply is_lower_spec in Ea; try apply is_lower_spec in Eb.
  + left; left. apply nat_of_ascii_inj. lia.
  + left; right. lia.
  + right. lia.
  + left; left. by apply nat_of_ascii_inj.
Qed.

(** Two strings differ at most in case exactly when [upper] identifies them. *)
Lemma eqb_ignore_case_spec s t :
  eqb_ignore_case s t = true ↔ upper s = upper t.
Proof.
revert t. induction s as [|a s IH]; intros [|b t]; simpl; try done.
rewrite andb_true_iff, char_eqb_ignore_case_spec, IH.
split; [intros [-> ->]; done | intros [= -> ->]; done].
Qed.

End CaseFacts.

Section RenderProperties.
Import Py Catalog Render Expected Notions.

Lemma get_insert (device : gmap string value) k v : get (<[k:=v]> device) k = v.
Proof. unfold get. by rewrite lookup_insert_eq. Qed.

Lemma get_lookup (device : gmap string value) k v :
  device !! k = Some v → get device k = v.
Proof. unfold get. by intros ->. Qed.

(** [strptime] raises nothing but [ValueError]. *)
Lemma strptime_only_ValueError s e :
  Datetime.strptime s = Raise e → e = ValueError.
Proof.
unfold Datetime.strptime.
destruct (Datetime.format_match s) as [[[[[[[y m] d] hh] mi] ss] rest]|];
  [destruct rest; [destruct (Datetime.valid_fields y m d hh mi ss)|]|];
  by intros [= <-].
Qed.

Lemma timestamp_of_string (device : gmap string value) desc s :
  get device (key desc) = PStr s →
  timestamp_native_value device desc = Ret (shown_instant (Str.strip "Z" s)).
Proof.
unfold timestamp_native_value, shown_instant. intros ->.
destruct (Datetime.strptime _) as [dt|e] eqn:E; [done|].
by rewrite (strptime_only_ValueError _ _ E).
Qed.

(** C4 (amended). A timestamp read of an absent or null value yields
    nothing.  A read of a string removes every leading and every trailing
    [Z], keeps what precedes the first period and parses it against
    [%Y-%m-%dT%H:%M:%S], tagged UTC; it returns the instant, or nothing when
    the text does not parse, as for "not-a-date", and never raises. *)
Theorem timestamp_read_of_text (device : gmap string value) desc :
  (∀ s, ∃ a b core,
      s = Str.repeat_char "Z" a +:+ core +:+ Str.repeat_char "Z" b
      ∧ bare "Z" core
      ∧ timestamp_native_value (<[key desc := PStr s]> device) desc
        = Ret (shown_instant core))
  ∧ timestamp_native_value (delete (key desc) device) desc = Ret None
  ∧ timestamp_native_value (<[key desc := PNone]> device) desc = Ret None
  ∧ timestamp_native_value (<[key desc := PStr "not-a-date"]> device) desc
    = Ret None.
Proof.
split; [|split; [|split]].
- intros s. destruct (strip_decompose "Z" s) as (a & b & Hd & Hb).
  exists a, b, (Str.strip "Z" s). split; [done|]. split; [done|].
  apply timestamp_of_string, get_insert.
- unfold timestamp_native_value, get. by rewrite lookup_delete_eq.
- unfold timestamp_native_value. by rewrite get_insert.
- rewrite (timestamp_of_string _ _ "not-a-date"); [done | apply get_insert].
Qed.

(** C8. The two documented stamps, one with a fraction of a second and one
    without, parse to the instants they denote, cut to whole seconds and
    tagged UTC; the fraction changes nothing. *)
Theorem documented_stamps_parse (device : gmap string value) desc :
  timestamp_native_value
    (<[key desc := PStr "2024-06-14T03:40:39.667544824Z"]> device) desc
  = Ret (Some (Datetime.mk_datetime 2024 6 14 3 40 39 0 (Some Datetime.UTC)))
  ∧ timestamp_native_value
      (<[key desc := PStr "2024-06-22T16:00:19Z"]> device) desc
    = Ret (Some (Datetime.mk_datetime 2024 6 22 16 0 19 0 (Some Datetime.UTC)))
  ∧ timestamp_native_value
      (<[key desc := PStr "2024-06-14T03:40:39.667544824Z"]> device) desc
    = timestamp_native_value
        (<[key desc := PStr "2024-06-14T03:40:39Z"]> device) desc
  ∧ timestamp_native_value
      (<[key desc := PStr "2024-06-22T16:00:19.667544824Z"]> device) desc
    = timestamp_native_value
        (<[key desc := PStr "2024-06-22T16:00:19Z"]> device) desc.
Proof.
repeat split;
  rewrite !(timestamp_of_string _ _ _ (get_insert _ _ _)); reflexivity.
Qed.

(** C10. Any number of [Z] characters in front of and behind a stamp leave
    the read unchanged; the stamps "Z2024-06-22T16:00:19Z" and
    "2024-06-22T16:00:19ZZZ" are read as 2024-06-22 16:00:19 UTC. *)
Theorem zone_designators_stripped_both_ends (device : gmap string value) desc :
  (∀ s a b,
      timestamp_native_value
        (<[key desc := PStr (Str.repeat_char "Z" a +:+ s +:+ Str.repeat_char "Z" b)]>
           device) desc
      = timestamp_native_value (<[key desc := PStr s]> device) desc)
  ∧ timestamp_native_value
      (<[key desc := PStr "Z2024-06-22T16:00:19Z"]> device) desc
    = Ret (Some (Datetime.mk_datetime 2024 6 22 16 0 19 0 (Some Datetime.UTC)))
  ∧ timestamp_native_value
      (<[key desc := PStr "2024-06-22T16:00:19ZZZ"]> device) desc
    = Ret (Some (Datetime.mk_datetime 2024 6 22 16 0 19 0 (Some Datetime.UTC))).
Proof.
split; [|split].
- intros s a b.
  rewrite !(timestamp_of_string _ _ _ (get_insert _ _ _)).
  by rewrite strip_pad.
- erewrite timestamp_of_string; [|apply get_insert]. reflexivity.
- erewrite timestamp_of_string; [|apply get_insert]. reflexivity.
Qed.

(** C4 as worded fails: a stamp with a leading [Z] is read as an instant,
    where stripping a trailing designator only leaves text that does not
    parse. *)
Lemma timestamp_leading_designator :
  timestamp_native_value Samples.zoned_device Samples.last_seen
  ≠ Ret (SpecWording.timestamp_render (Some "Z2024-06-22T16:00:19Z")).
Proof. vm_compute. discriminate. Qed.

Lemma model_config_ok (device : gmap string value) :
  model_identifier_ok device →
  _model_config device
  = Ret (if in_detect_series device
         then mk_life_config "Days to replace" DAYS
         else mk_life_config "Weeks to replace" WEEKS).
Proof.
unfold model_identifier_ok, _model_config, in_detect_series, get, get_default.
destruct (device !! KEY_MB_MODEL) as [v|]; simpl; [|done].
intros Hv. unfold config_get. rewrite Hv. do 2 f_equal.
unfold config_lookup, LIFE_SENSOR_CONFIG, MB_MODELS_DETECT_SERIES. simpl.
destruct (as_int v) as [n|]; simpl.
- destruct (n =? 48) eqn:E48; simpl.
  + apply Z.eqb_eq in E48 as ->. done.
  + destruct (n =? 46) eqn:E46; simpl.
    * apply Z.eqb_eq in E46 as ->. done.
    * apply Z.eqb_neq in E48, E46.
      rewrite bool_decide_eq_false_2
        by (rewrite elem_of_union, !elem_of_singleton; lia).
      by destruct v as [| | | |t| |]; simpl; try destruct (String.eqb t "default").
- by destruct v as [| | | |t| |]; simpl; try destruct (String.eqb t "default").
Qed.

Lemma model_config_unhashable (device : gmap string value) :
  hashable (get device KEY_MB_MODEL) = false →
  _model_config device = Raise TypeError.
Proof.
unfold _model_config, get, get_default.
destruct (device !! KEY_MB_MODEL) as [v|]; simpl; [|done].
intros Hv. unfold config_get. by rewrite Hv.
Qed.

(** C3. The name and unit of the life sensor are looked up as stated: a
    model identifier equal to 48 or 46 selects "Days to replace" and days,
    any other scalar and a missing identifier select "Weeks to replace" and
    weeks, and the value is the raw field as it is.  The description that
    should carry the name and the unit is never produced:
    [base_desc.replace] raises [AttributeError] for every device (after the
    [TypeError] of a model identifier that cannot be hashed). *)
Theorem life_description_replace_raises (device : gmap string value) base_desc :
  _model_config device
  = (if hashable (get device KEY_MB_MODEL)
     then Ret (if in_detect_series device
               then mk_life_config "Days to replace" DAYS
               else mk_life_config "Weeks to replace" WEEKS)
     else Raise TypeError)
  ∧ life_entity_description device base_desc
    = Raise (if hashable (get device KEY_MB_MODEL)
             then AttributeError else TypeError)
  ∧ life_native_value device = Ret (get device LIFE_SENSOR_KEY).
Proof.
unfold life_entity_description.
destruct (hashable (get device KEY_MB_MODEL)) eqn:Hh.
- by rewrite (model_config_ok _ Hh).
- by rewrite (model_config_unhashable _ Hh).
Qed.

Lemma unit_of_nested_object (device : gmap string value) desc d u :
  get device (key desc) = PDict d →
  get_default d KEY_UNIT (PStr "") = PStr u →
  measurement_native_unit_of_measurement device desc
  = Ret (unit_of_code (Str.upper u)).
Proof.
unfold measurement_native_unit_of_measurement. by intros -> ->.
Qed.

Lemma unit_of_code_table code unit :
  (code, unit) ∈ unit_table →
  Str.upper code = code ∧ unit_of_code code = Some unit.
Proof.
unfold unit_table. rewrite !elem_of_cons, elem_of_nil.
intros [H|[H|[H|[H|[H|[H|[H|[]]]]]]]]; injection H as -> ->; by split.
Qed.

Lemma unit_of_code_other code :
  (∀ c unit, (c, unit) ∈ unit_table → code ≠ c) → unit_of_code code = None.
Proof.
intros H. unfold unit_of_code.
repeat match goal with
  | |- context [String.eqb code ?c] =>
      destruct (String.eqb_spec code c) as [Heq | _];
      [ exfalso; eapply H; [|exact Heq]; apply list_elem_of_In; simpl; tauto |]
  end.
reflexivity.
Qed.

(** C5. The unit of a compound measurement follows the unit table whatever
    the case of the letters of its code: a code that matches an entry of the
    table up to case yields that entry's unit, and a code that matches none,
    the empty code of a missing unit among them, yields no unit. *)
Theorem unit_code_translation (device : gmap string value) desc d u :
  get device (key desc) = PDict d →
  get_default d KEY_UNIT (PStr "") = PStr u →
  (∀ code unit,
      (code, unit) ∈ unit_table → eqb_ignore_case u code = true →
      measurement_native_unit_of_measurement device desc = Ret (Some unit))
  ∧ ((∀ code unit, (code, unit) ∈ unit_table → eqb_ignore_case u code = false) →
     measurement_native_unit_of_measurement device desc = Ret None).
Proof.
intros Hd Hu. rewrite (unit_of_nested_object _ _ _ _ Hd Hu). split.
- intros code unit Hin Hcase. apply eqb_ignore_case_spec in Hcase.
  destruct (unit_of_code_table _ _ Hin) as [Hup Hunit].
  by rewrite Hcase, Hup, Hunit.
- intros Hnone. f_equal. apply unit_of_code_other.
  intros c unit Hin Heq. specialize (Hnone c unit Hin).
  destruct (unit_of_code_table _ _ Hin) as [Hup _].
  rewrite <- Hup in Heq. apply eqb_ignore_case_spec in Heq. congruence.
Qed.

(** C6. The attributes of a compound measurement always hold the key
    "Status"; when the raw value is no nested object the value is unknown,
    there is no unit and the attributes are exactly a null "Status". *)
Theorem malformed_measurement_is_unknown (device : gmap string value) desc :
  (∃ attrs,
      measurement_extra_state_attributes device desc = Ret attrs
      ∧ is_Some (attrs !! "Status"))
  ∧ (is_dict (get device (key desc)) = false →
     measurement_native_value device desc = Ret PNone
     ∧ measurement_native_unit_of_measurement device desc = Ret None
     ∧ measurement_extra_state_attributes device desc
       = Ret {[ "Status" := PNone ]}).
Proof.
unfold measurement_extra_state_attributes, measurement_native_value,
  measurement_native_unit_of_measurement.
split.
- destruct (get device (key desc));
    (eexists; split; [reflexivity | by rewrite lookup_singleton_eq]).
- by destruct (get device (key desc)).
Qed.



End RenderProperties.

(** * The properties at the sample data *)

Section Witnesses.
Import Py Catalog Render Setup Expected Notions.

Lemma sample_ids_NoDup : NoDup Samples.devices.*1.
Proof. apply (bool_decide_unpack _). vm_compute. exact I. Qed.

Lemma sample_models_ok : Forall (λ dv, model_identifier_ok dv.2) Samples.devices.
Proof. repeat constructor. Qed.

Lemma enumeration_sensor_iff_present_witness :
  ∃ sensors,
    async_setup_entry Samples.devices = Ret sensors ∧
    ∀ device_id device_data F,
      (device_id, device_data) ∈ Samples.devices → F ∈ all_descriptions →
      (sensor_exists sensors device_id F
       ↔ is_Some (device_data !! key F)
         ∧ suppressed device_data (key F) = false).
Proof.
apply enumeration_sensor_iff_present;
  [exact sample_ids_NoDup | exact sample_models_ok].
Defined.


Lemma enumeration_no_duplicate_sensor_witness :
  ∃ sensors,
    async_setup_entry Samples.devices = Ret sensors ∧
    NoDup (sensor_id <$> sensors) ∧
    ∀ device_id device_data,
      (device_id, device_data) ∈ Samples.devices →
      is_Some (device_data !! LIFE_SENSOR_KEY) →
      ∃ desc,
        life_description = Some desc ∧
        filter (λ e, sensor_id e = (device_id, LIFE_SENSOR_KEY)) sensors
        = [KiddeSensorLifeEntity device_id desc].
Proof.
apply enumeration_no_duplicate_sensor;
  [exact sample_ids_NoDup | exact sample_models_ok].
Defined.

Lemma unit_code_translation_witness :
  measurement_native_unit_of_measurement Samples.legacy_device Samples.hpa
  = Ret (Some PA).
Proof.
refine (proj1 (unit_code_translation Samples.legacy_device Samples.hpa
                 Samples.pressure_reading "Hpa" _ _) "HPA" PA _ _).
- vm_compute; reflexivity.
- vm_compute; reflexivity.
- apply list_elem_of_In. simpl. tauto.
- vm_compute; reflexivity.
Defined.

Lemma malformed_measurement_is_unknown_witness :
  measurement_native_value Samples.legacy_device Samples.humidity = Ret PNone
  ∧ measurement_native_unit_of_measurement Samples.legacy_device Samples.humidity
    = Ret None
  ∧ measurement_extra_state_attributes Samples.legacy_device Samples.humidity
    = Ret {[ "Status" := PNone ]}.
Proof.
apply (proj2 (malformed_measurement_is_unknown Samples.legacy_device
                Samples.humidity)).
vm_compute; reflexivity.
Defined.

End Witnesses.

(** * Worked examples *)

Section Examples.
Import Py Catalog Render Setup.

Example strptime_plain :
  Datetime.strptime "2024-06-22T16:00:19"
  = Ret (Datetime.mk_datetime 2024 6 22 16 0 19 0 None).
Proof. reflexivity. Qed.

(** Fields of one digit and a lower-case separator are accepted. *)
Example strptime_short_fields :
  Datetime.strptime "2024-6-2t1:2:3"
  = Ret (Datetime.mk_datetime 2024 6 2 1 2 3 0 None).
Proof. reflexivity. Qed.

Example strptime_leap_second :
  Datetime.strptime "2024-06-22T16:00:60" = Raise ValueError.
Proof. reflexivity. Qed.

Example strptime_february_30 :
  Datetime.strptime "2024-02-30T16:00:00" = Raise ValueError.
Proof. reflexivity. Qed.

Example strptime_data_remains :
  Datetime.strptime "2024-06-22T16:00:190" = Raise ValueError.
Proof. reflexivity. Qed.

Example unit_codes_in_any_case (d : gmap string value) :
  measurement_native_unit_of_measurement
    {[ "hpa" := PDict (<["Unit" := PStr "hpa"]> d) ]} Samples.hpa = Ret (Some PA)
  ∧ measurement_native_unit_of_measurement
      {[ "hpa" := PDict (<["Unit" := PStr "HPA"]> d) ]} Samples.hpa = Ret (Some PA)
  ∧ measurement_native_unit_of_measurement
      {[ "hpa" := PDict (<["Unit" := PStr "Hpa"]> d) ]} Samples.hpa = Ret (Some PA)
  ∧ measurement_native_unit_of_measurement
      {[ "hpa" := PDict (<["Unit" := PStr "XYZ"]> d) ]} Samples.hpa = Ret None
  ∧ measurement_native_unit_of_measurement
      {[ "hpa" := PDict (<["Unit" := PStr ""]> d) ]} Samples.hpa = Ret None
  ∧ measurement_native_unit_of_measurement
      {[ "hpa" := PDict ∅ ]} Samples.hpa = Ret None.
Proof.
repeat split;
  (eapply eq_trans;
   [ eapply unit_of_nested_object;
     [ apply get_lookup, lookup_singleton_eq
     | unfold get_default; rewrite ?lookup_insert_eq, ?lookup_empty; reflexivity ]
   | reflexivity ]).
Qed.

(** A unit code that is no string makes the unit read raise. *)
Example null_unit_code_raises :
  measurement_native_unit_of_measurement
    {[ "hpa" := PDict {[ "Unit" := PNone ]} ]} Samples.hpa
  = Raise AttributeError.
Proof. reflexivity. Qed.

(** A model identifier equal to 46 as a float counts as 46. *)
Example float_model_identifier :
  _model_config {[ "mb_model" := PFloat (FFin 23 1) ]}
  = Ret (mk_life_config "Days to replace" DAYS).
Proof. reflexivity. Qed.

(** A model identifier that cannot be hashed stops enumeration for every
    device, and the description of the life sensor cannot be read. *)
Example list_model_identifier_raises :
  async_setup_entry ((3, Samples.list_model_device) :: Samples.devices)
  = Raise TypeError
  ∧ life_entity_description Samples.list_model_device Samples.life
    = Raise TypeError.
Proof. split; reflexivity. Qed.

(** Reading the description of the life sensor of a DETECT device raises,
    although the lookup has found its name and unit. *)
Example detect_life_description_raises :
  _model_config Samples.detect_device
  = Ret (mk_life_config "Days to replace" DAYS)
  ∧ life_entity_description Samples.detect_device Samples.life
    = Raise AttributeError.
Proof. split; reflexivity. Qed.

(** The sensors of the sample devices, in the order they are created. *)
Example sample_enumeration :
  async_setup_entry Samples.devices
  = Ret [ KiddeSensorTimestampEntity 1 Samples.last_seen;
          KiddeSensorLifeEntity 1 Samples.life;
          KiddeSensorTimestampEntity 2
            (mk_description "last_test_time" (Some "mdi:home-clock")
               "Last Test Time" (Some TIMESTAMP) None None None None true None);
          KiddeSensorLifeEntity 2 Samples.life;
          KiddeSensorEntity 2 Samples.batt_volt;
          KiddeSensorMeasurementEntity 2 Samples.humidity;
          KiddeSensorMeasurementEntity 2 Samples.hpa ].
Proof. reflexivity. Qed.

End Examples.

(** * Further properties of enumeration *)

Section EnumerationFurther.
Import Py Catalog Setup Expected Further.

Lemma sensor_loop_unhashable device_id device_data mb_model descs sensors :
  hashable mb_model = false →
  Exists (λ d, not_life d ∧ ¬ unskipped d) descs →
  sensor_loop device_id device_data mb_model descs sensors = Raise TypeError.
Proof.
intros Hmb Hex. revert sensors.
induction Hex as [d descs [Hl Hs] | d descs _ IH]; intros sensors; simpl.
- unfold not_life in Hl. destruct (String.eqb (key d) LIFE_SENSOR_KEY); [done|].
  unfold unskipped in Hs.
  destruct (bool_decide (key d ∈ _SKIP_SIMPLE_SENSOR_KEYS)); [|done].
  unfold in_int_set. by rewrite Hmb.
- destruct (String.eqb (key d) LIFE_SENSOR_KEY); [apply IH|].
  destruct (bool_decide (key d ∈ _SKIP_SIMPLE_SENSOR_KEYS)).
  + unfold in_int_set. by rewrite Hmb.
  + simpl. destruct (contains device_data (key d)); apply IH.
Qed.

Lemma sensor_descriptions_reach_skip_set :
  Exists (λ d, not_life d ∧ ¬ unskipped d) _SENSOR_DESCRIPTIONS.
Proof.
do 3 apply Exists_cons_tl. apply Exists_cons_hd. split; [exact I|].
unfold unskipped. vm_compute. discriminate.
Qed.

Lemma device_sensors_unhashable device_id device_data sensors :
  hashable (get device_data KEY_MB_MODEL) = false →
  device_sensors device_id device_data sensors = Raise TypeError.
Proof.
intros Hmb. unfold device_sensors. cbv zeta.
by rewrite (sensor_loop_unhashable _ _ _ _ _ Hmb
              sensor_descriptions_reach_skip_set).
Qed.

Lemma device_loop_unhashable devices sensors :
  Exists (λ dv, hashable (get dv.2 KEY_MB_MODEL) = false) devices →
  device_loop devices sensors = Raise TypeError.
Proof.
revert sensors.
induction devices as [|[i d] devices IH]; intros sensors Hex; [by inversion Hex|].
simpl. destruct (hashable (get d KEY_MB_MODEL)) eqn:Hd.
- rewrite (device_sensors_entities _ _ _ Hd). simpl. apply IH.
  inversion Hex as [? ? Hh | ? ? Ht]; subst; [simpl in Hh; congruence | done].
- by rewrite (device_sensors_unhashable _ _ _ Hd).
Qed.

Lemma models_ok_or_not (devices : list (Z * gmap string value)) :
  Forall (λ dv, model_identifier_ok dv.2) devices
  ∨ Exists (λ dv, hashable (get dv.2 KEY_MB_MODEL) = false) devices.
Proof.
induction devices as [|[i d] devices [IH | IH]].
- left. constructor.
- destruct (hashable (get d KEY_MB_MODEL)) eqn:Hd.
  + left. by constructor.
  + right. by apply Exists_cons_hd.
- right. by apply Exists_cons_tl.
Qed.

Lemma setup_entry_returns_inv devices sensors :
  async_setup_entry devices = Ret sensors →
  Forall (λ dv, model_identifier_ok dv.2) devices
  ∧ sensors = mjoin ((λ dv, device_entities dv.1 dv.2) <$> devices).
Proof.
intros Hr. destruct (models_ok_or_not devices) as [Hok | Hex].
- split; [done|]. rewrite (setup_entry_returns _ Hok) in Hr. by injection Hr.
- unfold async_setup_entry in Hr.
  by rewrite (device_loop_unhashable _ _ Hex) in Hr.
Qed.

(** X1. Enumeration is all or nothing: it returns when every device has a
    model identifier that is absent or a scalar, and when one device has a
    list or an object there it raises [TypeError], whatever the other
    devices hold, so that no sensor is handed over at all. *)
Theorem setup_entry_all_or_nothing (devices : list (Z * gmap string value)) :
  (Forall (λ dv, model_identifier_ok dv.2) devices
   ∧ returns (async_setup_entry devices))
  ∨ (Exists (λ dv, hashable (get dv.2 KEY_MB_MODEL) = false) devices
     ∧ async_setup_entry devices = Raise TypeError).
Proof.
destruct (models_ok_or_not devices) as [Hok | Hex].
- left. split; [done|]. rewrite (setup_entry_returns _ Hok). by eexists.
- right. split; [done|]. by apply device_loop_unhashable.
Qed.

(** X2. The sensors of a list of devices are those of its first part
    followed by those of the rest: every device contributes its sensors in
    one block, in the order of the devices. *)
Theorem setup_entry_app (devices1 devices2 : list (Z * gmap string value))
    sensors1 sensors2 :
  async_setup_entry devices1 = Ret sensors1 →
  async_setup_entry devices2 = Ret sensors2 →
  async_setup_entry (devices1 ++ devices2) = Ret (sensors1 ++ sensors2).
Proof.
intros [Hok1 ->]%setup_entry_returns_inv [Hok2 ->]%setup_entry_returns_inv.
rewrite setup_entry_returns by by apply Forall_app.
by rewrite fmap_app, join_app.
Qed.

Lemma device_entities_class device_id device_data e :
  e ∈ device_entities device_id device_data →
  class_matches e ∧ is_Some (device_data !! entity_key e).
Proof.
unfold device_entities. rewrite !elem_of_app, !list_elem_of_fmap.
intros [(d & -> & Hd) | [H | [(d & -> & Hd) | (d & -> & Hd)]]]; simpl.
- apply list_elem_of_filter in Hd as [Hp Hd]. split; [done|].
  by apply present_is_Some.
- unfold life_entities in H.
  destruct life_description_eq as (desc & Hl & Hk & _). rewrite Hl in H.
  destruct (contains device_data LIFE_SENSOR_KEY) eqn:Hc;
    [|by apply elem_of_nil in H].
  apply list_elem_of_singleton in H as ->. simpl. split; [done|].
  unfold entity_key. simpl. rewrite Hk.
  unfold contains in Hc. by apply bool_decide_eq_true in Hc.
- apply list_elem_of_filter in Hd as [Hk Hd]. unfold kept in Hk.
  apply andb_prop_elim in Hk as [Hk Hp].
  apply andb_prop_elim in Hk as [Hn _].
  split; [split; [done|] | by apply present_is_Some].
  intros Heq. apply String.eqb_eq in Heq. by rewrite Heq in Hn.
- apply list_elem_of_filter in Hd as [Hp Hd]. split; [done|].
  by apply present_is_Some.
Qed.

(** X3. Every sensor enumeration hands over belongs to one of the devices,
    stands for a key that device's data hold, and has the class that renders
    its descriptor: timestamp descriptors get timestamp entities, the life
    descriptor the life entity, the other scalar descriptors plain entities
    and measurement descriptors measurement entities. *)
Theorem sensors_have_device_and_class (devices : list (Z * gmap string value))
    sensors e :
  async_setup_entry devices = Ret sensors →
  e ∈ sensors →
  class_matches e
  ∧ ∃ device_data,
      (entity_device e, device_data) ∈ devices
      ∧ is_Some (device_data !! entity_key e).
Proof.
intros [_ ->]%setup_entry_returns_inv He.
apply elem_of_all_entities in He as (i & d & Hin & He).
destruct (device_entities_class _ _ _ He) as [Hc Hp].
split; [done|]. exists d.
by rewrite (device_entities_device _ _ _ He).
Qed.

Lemma device_entities_length device_id device_data :
  (length (device_entities device_id device_data) ≤ 25)%nat.
Proof.
rewrite <- (length_fmap entity_key).
pose proof (sublist_length _ _ (device_entities_keys device_id device_data)) as H.
assert (length creation_keys = 25%nat) as Hc by reflexivity.
lia.
Qed.

Lemma all_entities_length (devices : list (Z * gmap string value)) :
  (length (mjoin ((λ dv, device_entities dv.1 dv.2) <$> devices))
   ≤ 25 * length devices)%nat.
Proof.
induction devices as [|[i d] devices IH]; [simpl; lia|].
rewrite fmap_cons. change (mjoin (?x :: ?l)) with (x ++ mjoin l).
rewrite length_app, length_cons.
pose proof (device_entities_length i d). simpl fst. simpl snd. lia.
Qed.

Lemma contains_dom (d : gmap string value) k :
  contains d k = bool_decide (k ∈ dom d).
Proof. unfold contains. apply bool_decide_ext. by rewrite elem_of_dom. Qed.

Lemma presence_loop_same_keys mk device_id (d1 d2 : gmap string value)
    descs sensors :
  dom d1 = dom d2 →
  presence_loop mk device_id d1 descs sensors
  = presence_loop mk device_id d2 descs sensors.
Proof.
intros Hdom. revert sensors.
induction descs as [|d descs IH]; intros sensors; simpl; [done|].
rewrite !contains_dom, Hdom. by rewrite !IH.
Qed.

Lemma sensor_loop_same_keys device_id (d1 d2 : gmap string value)
    mb_model descs sensors :
  dom d1 = dom d2 →
  sensor_loop device_id d1 mb_model descs sensors
  = sensor_loop device_id d2 mb_model descs sensors.
Proof.
intros Hdom. revert sensors.
induction descs as [|d descs IH]; intros sensors; simpl; [done|].
rewrite !contains_dom, Hdom. rewrite IH.
destruct (String.eqb (key d) LIFE_SENSOR_KEY); [done|].
f_equal. by rewrite !IH.
Qed.

Lemma device_sensors_same_shape device_id (d1 d2 : gmap string value) sensors :
  dom d1 = dom d2 →
  get d1 KEY_MB_MODEL = get d2 KEY_MB_MODEL →
  device_sensors device_id d1 sensors = device_sensors device_id d2 sensors.
Proof.
intros Hdom Hmb. unfold device_sensors. cbv zeta.
rewrite Hmb, !contains_dom, Hdom.
rewrite (presence_loop_same_keys _ _ d1 d2 _ _ Hdom).
rewrite (sensor_loop_same_keys _ d1 d2 _ _ _ Hdom).
destruct (sensor_loop _ _ _ _ _); unfold bind; [|done].
by rewrite (presence_loop_same_keys _ _ d1 d2 _ _ Hdom).
Qed.

(** X5. Enumeration looks at the keys of a device and at its model
    identifier only: two lists of devices that agree on identifiers, keys
    and model identifiers give the same outcome, whatever the other values
    are, so a refresh that changes values alone calls for no new sensor. *)
Theorem setup_entry_ignores_values (devices1 devices2 : list (Z * gmap string value)) :
  Forall2 same_shape devices1 devices2 →
  async_setup_entry devices1 = async_setup_entry devices2.
Proof.
unfold async_setup_entry. generalize (@nil entity).
intros sensors Hs. revert sensors.
induction Hs as [|[i1 d1] [i2 d2] l1 l2 (Hi & Hdom & Hmb) _ IH];
  intros sensors; simpl in *; [done|].
subst i2. rewrite (device_sensors_same_shape _ _ _ _ Hdom Hmb).
destruct (device_sensors i1 d2 sensors); simpl; [apply IH | done].
Qed.

Lemma filter_all {A} (P : A → Prop) `{∀ x, Decision (P x)} (l : list A) :
  (∀ y, y ∈ l → P y) → filter P l = l.
Proof.
induction l as [|a l IH]; intros Hl; [done|].
rewrite filter_cons_True by apply Hl, list_elem_of_here.
f_equal. apply IH. intros y Hy. by apply Hl, list_elem_of_further.
Qed.

Lemma filter_own_device (devices : list (Z * gmap string value))
    device_id device_data :
  NoDup devices.*1 → (device_id, device_data) ∈ devices →
  filter (λ e, entity_device e = device_id)
         (mjoin ((λ dv, device_entities dv.1 dv.2) <$> devices))
  = device_entities device_id device_data.
Proof.
induction devices as [|[i d] devices IH]; intros Hnd Hin;
  [by apply elem_of_nil in Hin|].
rewrite fmap_cons. change (mjoin (?x :: ?l)) with (x ++ mjoin l).
rewrite filter_app. simpl fst. simpl snd.
rewrite fmap_cons in Hnd. apply NoDup_cons in Hnd as [Hi Hnd].
apply elem_of_cons in Hin as [[= -> ->] | Hin].
- rewrite filter_all by (intros e He; by apply device_entities_device in He).
  rewrite filter_none; [by rewrite app_nil_r|].
  intros e He Hid. apply Hi.
  apply elem_of_all_entities in He as (j & dj & Hj & He).
  apply device_entities_device in He. rewrite Hid in He. subst j.
  apply list_elem_of_fmap. by exists (i, dj).
- rewrite filter_none; [by apply IH|].
  intros e He Hid. apply Hi. apply device_entities_device in He.
  rewrite Hid in He. subst i.
  apply list_elem_of_fmap. by exists (device_id, device_data).
Qed.

(** X4. In the list enumeration hands over, no device has more than 25
    sensors, one per field of the catalog; the list as a whole holds at
    most 25 sensors per device. *)
Theorem sensor_count_bounded (devices : list (Z * gmap string value)) sensors :
  NoDup devices.*1 →
  async_setup_entry devices = Ret sensors →
  (∀ device_id,
      (length (filter (λ e, entity_device e = device_id) sensors) ≤ 25)%nat)
  ∧ (length sensors ≤ 25 * length devices)%nat.
Proof.
intros Hnd [_ ->]%setup_entry_returns_inv.
split; [|apply all_entities_length].
intros device_id.
destruct (decide (device_id ∈ devices.*1)) as [Hin | Hout].
- apply list_elem_of_fmap in Hin as ([i d] & -> & Hin). simpl.
  rewrite (filter_own_device _ _ _ Hnd Hin). apply device_entities_length.
- rewrite filter_none; [simpl; lia|].
  intros e He Hid. apply Hout.
  apply elem_of_all_entities in He as (j & dj & Hj & He).
  apply device_entities_device in He. rewrite Hid in He. subst j.
  apply list_elem_of_fmap. by exists (device_id, dj).
Qed.

(** X10. The sensors of one device come in a fixed order: timestamp fields
    first, then the life field, then the other scalar fields, then the
    compound measurements, each group in the order of its list; picked out
    of the whole list, their keys are the creation order with the keys the
    device lacks, or that are suppressed, left out. *)
Theorem creation_order_fixed (devices : list (Z * gmap string value))
    sensors device_id device_data :
  NoDup devices.*1 →
  async_setup_entry devices = Ret sensors →
  (device_id, device_data) ∈ devices →
  entity_key <$> filter (λ e, entity_device e = device_id) sensors
  `sublist_of` creation_keys.
Proof.
intros Hnd [_ ->]%setup_entry_returns_inv Hin.
rewrite (filter_own_device _ _ _ Hnd Hin).
apply device_entities_keys.
Qed.

End EnumerationFurther.

(** * Further properties of the renderers *)

Section RenderFurther.
Import Py Catalog Render Setup Expected Notions Further Iso.

Lemma strptime_Ret s dt :
  Datetime.strptime s = Ret dt →
  ∃ y m d hh mi ss,
    dt = Datetime.mk_datetime y m d hh mi ss 0 None
    ∧ Datetime.valid_fields y m d hh mi ss = true.
Proof.
unfold Datetime.strptime.
destruct (Datetime.format_match s) as [[[[[[[y m] d] hh] mi] ss] rest]|];
  [|done].
destruct rest; [|done].
destruct (Datetime.valid_fields y m d hh mi ss) eqn:Hv; [|done].
intros [= <-]. by exists y, m, d, hh, mi, ss.
Qed.

Lemma digit_digit_char d : 0 ≤ d ≤ 9 → Datetime.digit (digit_char d) = Some d.
Proof.
intros Hd.
assert (d = 0 ∨ d = 1 ∨ d = 2 ∨ d = 3 ∨ d = 4 ∨ d = 5 ∨ d = 6 ∨ d = 7
        ∨ d = 8 ∨ d = 9) as H by lia.
repeat destruct H as [-> | H]; try subst d; reflexivity.
Qed.

Lemma digit_char_plain d c :
  0 ≤ d ≤ 9 → Datetime.digit c = None → digit_char d ≠ c.
Proof. intros Hd Hc <-. by rewrite digit_digit_char in Hc. Qed.

Lemma one_digit_char {T} lo hi (k : Z → string → option T) d rest :
  0 ≤ d ≤ 9 →
  Datetime.one lo hi k (String (digit_char d) rest)
  = if (lo <=? d) && (d <=? hi) then k d rest else None.
Proof. intros Hd. unfold Datetime.one. by rewrite digit_digit_char. Qed.

Lemma two_digit_chars {T} lo1 hi1 lo2 hi2 (k : Z → string → option T) d1 d2 rest :
  0 ≤ d1 ≤ 9 → 0 ≤ d2 ≤ 9 →
  Datetime.two lo1 hi1 lo2 hi2 k (String (digit_char d1) (String (digit_char d2) rest))
  = if (lo1 <=? d1) && (d1 <=? hi1)
    then if (lo2 <=? d2) && (d2 <=? hi2) then k (10 * d1 + d2) rest else None
    else None.
Proof.
intros H1 H2. unfold Datetime.two. rewrite one_digit_char by done.
destruct ((lo1 <=? d1) && (d1 <=? hi1)); [|done].
by rewrite one_digit_char.
Qed.

Lemma lit_same {T} c (k : string → option T) rest :
  Datetime.lit c k (String c rest) = k rest.
Proof. unfold Datetime.lit. by rewrite Ascii.eqb_refl. Qed.

Lemma pad2_digits v rest :
  0 ≤ v ≤ 99 →
  ∃ d1 d2, v = 10 * d1 + d2 ∧ 0 ≤ d1 ≤ 9 ∧ 0 ≤ d2 ≤ 9
           ∧ pad2 v rest = String (digit_char d1) (String (digit_char d2) rest).
Proof.
intros Hv. exists (v / 10), (v mod 10).
split; [|split; [|split]]; [| | |done]; Z.div_mod_to_equations; lia.
Qed.

Lemma pad4_digits v rest :
  0 ≤ v ≤ 9999 →
  ∃ a b c d, v = 1000 * a + 100 * b + 10 * c + d
             ∧ 0 ≤ a ≤ 9 ∧ 0 ≤ b ≤ 9 ∧ 0 ≤ c ≤ 9 ∧ 0 ≤ d ≤ 9
             ∧ pad4 v rest
               = String (digit_char a) (String (digit_char b)
                   (String (digit_char c) (String (digit_char d) rest))).
Proof.
intros Hv. exists (v / 1000), (v / 100 mod 10), (v / 10 mod 10), (v mod 10).
repeat split; Z.div_mod_to_equations; lia.
Qed.

Ltac settle_ranges Hk :=
  repeat match goal with
  | |- context [(?a <=? ?b)] =>
      first [ rewrite (proj2 (Z.leb_le a b)) by lia
            | rewrite (proj2 (Z.leb_gt a b)) by lia
            | destruct (Z.leb_spec a b) ]
  end;
  cbv beta iota delta [andb Datetime.orelse];
  first [ rewrite Hk; reflexivity | exfalso; lia ].

Lemma re_Y_pad4 {T} (k : Z → string → option T) v rest r :
  0 ≤ v ≤ 9999 → k v rest = Some r → Datetime.re_Y k (pad4 v rest) = Some r.
Proof.
intros Hv Hk.
destruct (pad4_digits v rest Hv) as (a & b & c & d & -> & Ha & Hb & Hc & Hd & ->).
unfold Datetime.re_Y. rewrite !one_digit_char by done.
settle_ranges Hk.
Qed.

Lemma re_m_pad2 {T} (k : Z → string → option T) v rest r :
  1 ≤ v ≤ 12 → k v rest = Some r → Datetime.re_m k (pad2 v rest) = Some r.
Proof.
intros Hv Hk.
destruct (pad2_digits v rest) as (d1 & d2 & -> & H1 & H2 & ->); [lia|].
unfold Datetime.re_m. rewrite !two_digit_chars, !one_digit_char by done.
settle_ranges Hk.
Qed.

Lemma re_d_pad2 {T} (k : Z → string → option T) v rest r :
  1 ≤ v ≤ 31 → k v rest = Some r → Datetime.re_d k (pad2 v rest) = Some r.
Proof.
intros Hv Hk.
destruct (pad2_digits v rest) as (d1 & d2 & -> & H1 & H2 & ->); [lia|].
unfold Datetime.re_d. rewrite !two_digit_chars, !one_digit_char by done.
settle_ranges Hk.
Qed.

Lemma re_H_pad2 {T} (k : Z → string → option T) v rest r :
  0 ≤ v ≤ 23 → k v rest = Some r → Datetime.re_H k (pad2 v rest) = Some r.
Proof.
intros Hv Hk.
destruct (pad2_digits v rest) as (d1 & d2 & -> & H1 & H2 & ->); [lia|].
unfold Datetime.re_H. rewrite !two_digit_chars, !one_digit_char by done.
settle_ranges Hk.
Qed.

Lemma re_M_pad2 {T} (k : Z → string → option T) v rest r :
  0 ≤ v ≤ 59 → k v rest = Some r → Datetime.re_M k (pad2 v rest) = Some r.
Proof.
intros Hv Hk.
destruct (pad2_digits v rest) as (d1 & d2 & -> & H1 & H2 & ->); [lia|].
unfold Datetime.re_M. rewrite !two_digit_chars, !one_digit_char by done.
settle_ranges Hk.
Qed.

Lemma re_S_pad2 {T} (k : Z → string → option T) v rest r :
  0 ≤ v ≤ 59 → k v rest = Some r → Datetime.re_S k (pad2 v rest) = Some r.
Proof.
intros Hv Hk.
destruct (pad2_digits v rest) as (d1 & d2 & -> & H1 & H2 & ->); [lia|].
unfold Datetime.re_S. rewrite !two_digit_chars, !one_digit_char by done.
settle_ranges Hk.
Qed.

Lemma valid_fields_ranges y m d hh mi ss :
  Datetime.valid_fields y m d hh mi ss = true →
  1 ≤ y ≤ 9999 ∧ 1 ≤ m ≤ 12 ∧ 1 ≤ d ≤ 31
  ∧ 0 ≤ hh ≤ 23 ∧ 0 ≤ mi ≤ 59 ∧ 0 ≤ ss ≤ 59.
Proof.
unfold Datetime.valid_fields. rewrite !andb_true_iff, !Z.leb_le.
assert (Datetime.days_in_month y m ≤ 31).
{ unfold Datetime.days_in_month.
  destruct (m =? 2); [destruct (Datetime.is_leap y); lia|].
  destruct (_ || _); lia. }
lia.
Qed.

(** The pattern reads back the fields of a written stamp, whatever follows. *)
Lemma format_match_isoformat y m d hh mi ss rest :
  Datetime.valid_fields y m d hh mi ss = true →
  Datetime.format_match (isoformat y m d hh mi ss rest)
  = Some (y, m, d, hh, mi, ss, rest).
Proof.
intros (Hy & Hm & Hd & Hh & Hmi & Hs)%valid_fields_ranges.
unfold Datetime.format_match, isoformat.
apply re_Y_pad4; [lia|]. rewrite lit_same.
apply re_m_pad2; [lia|]. rewrite lit_same.
apply re_d_pad2; [lia|]. rewrite lit_same.
apply re_H_pad2; [lia|]. rewrite lit_same.
apply re_M_pad2; [lia|]. rewrite lit_same.
by apply re_S_pad2.
Qed.

Lemma rstrip_cons_ne c a s :
  a ≠ c → Str.rstrip c (String a s) = String a (Str.rstrip c s).
Proof.
intros Hne. simpl. destruct (Str.rstrip c s); [|done].
destruct (Ascii.eqb_spec a c); [done | done].
Qed.

Lemma split_head_cons_ne c a s :
  a ≠ c → Str.split_head c (String a s) = String a (Str.split_head c s).
Proof. intros Hne. simpl. by destruct (Ascii.eqb_spec a c). Qed.

Lemma lstrip_cons_ne c a s : a ≠ c → Str.lstrip c (String a s) = String a s.
Proof. intros Hne. simpl. by destruct (Ascii.eqb_spec a c). Qed.

(** A written stamp holds digits and the separators [-], [T] and [:]; a
    character that is none of them is looked for behind it. *)
Lemma isoformat_passes (f : ascii → string → string) c y m d hh mi ss rest :
  (∀ a s, a ≠ c → f c (String a s) = String a (f c s)) →
  Datetime.valid_fields y m d hh mi ss = true →
  Datetime.digit c = None → c ≠ "-"%char → c ≠ "T"%char → c ≠ ":"%char →
  f c (isoformat y m d hh mi ss rest) = isoformat y m d hh mi ss (f c rest).
Proof.
intros Hf (Hy & Hm & Hd & Hh & Hmi & Hs)%valid_fields_ranges Hc H1 H2 H3.
unfold isoformat, pad4, pad2.
rewrite !Hf
  by first [ apply digit_char_plain; [Z.div_mod_to_equations; lia | done]
           | by apply not_eq_sym ].
done.
Qed.

Lemma stamp_text_of_isoformat y m d hh mi ss suffix :
  Datetime.valid_fields y m d hh mi ss = true →
  Str.split_head "." (Str.rstrip "Z" suffix) = "" →
  Str.split_head "." (Str.strip "Z" (isoformat y m d hh mi ss suffix))
  = isoformat y m d hh mi ss "".
Proof.
intros Hv Hs. unfold Str.strip.
assert (Str.lstrip "Z" (isoformat y m d hh mi ss suffix)
        = isoformat y m d hh mi ss suffix) as ->.
{ pose proof (valid_fields_ranges _ _ _ _ _ _ Hv) as (Hy & _).
  unfold isoformat, pad4.
  apply lstrip_cons_ne, digit_char_plain; [Z.div_mod_to_equations; lia | done]. }
rewrite (isoformat_passes Str.rstrip) by (done || apply rstrip_cons_ne).
rewrite (isoformat_passes Str.split_head) by (done || apply split_head_cons_ne).
by rewrite Hs.
Qed.

Lemma strptime_isoformat y m d hh mi ss :
  Datetime.valid_fields y m d hh mi ss = true →
  Datetime.strptime (isoformat y m d hh mi ss "")
  = Ret (Datetime.mk_datetime y m d hh mi ss 0 None).
Proof.
intros Hv. unfold Datetime.strptime.
by rewrite (format_match_isoformat _ _ _ _ _ _ _ Hv), Hv.
Qed.

(** X7. An instant written as [YYYY-MM-DDTHH:MM:SS] is read back as that
    instant, tagged UTC, when the text stops there or goes on with any
    number of [Z] characters, and also when it goes on with a period and
    any text at all: the fraction of a second is dropped unread. *)
Theorem written_stamp_reads_back (device : gmap string value) desc
    y m d hh mi ss b fraction :
  Datetime.valid_fields y m d hh mi ss = true →
  timestamp_native_value
    (<[key desc := PStr (isoformat y m d hh mi ss (Str.repeat_char "Z" b))]> device)
    desc
  = Ret (Some (Datetime.mk_datetime y m d hh mi ss 0 (Some Datetime.UTC)))
  ∧ timestamp_native_value
      (<[key desc := PStr (isoformat y m d hh mi ss (String "." fraction))]> device)
      desc
    = Ret (Some (Datetime.mk_datetime y m d hh mi ss 0 (Some Datetime.UTC))).
Proof.
intros Hv.
split; rewrite (timestamp_of_string _ _ _ (get_insert _ _ _));
  unfold shown_instant.
- rewrite (stamp_text_of_isoformat _ _ _ _ _ _ _ Hv)
    by by rewrite rstrip_all.
  by rewrite (strptime_isoformat _ _ _ _ _ _ Hv).
- rewrite (stamp_text_of_isoformat _ _ _ _ _ _ _ Hv)
    by by rewrite rstrip_cons_ne.
  by rewrite (strptime_isoformat _ _ _ _ _ _ Hv).
Qed.

(** X8. A sensor outlives its key: when a later refresh holds no value
    under the key of a sensor enumeration has created, the value read
    returns [None] and does not raise, whatever the class of the sensor. *)
Theorem dropped_key_reads_unknown (devices : list (Z * gmap string value))
    sensors e (refreshed : gmap string value) :
  async_setup_entry devices = Ret sensors →
  e ∈ sensors →
  refreshed !! entity_key e = None →
  Read.native_value e refreshed = Ret (Read.Raw PNone).
Proof.
intros [_ ->]%setup_entry_returns_inv He Hnone.
apply elem_of_all_entities in He as (i & data & _ & He).
apply device_entities_class in He as [Hc _].
unfold entity_key in Hnone.
destruct e as [j d | j d | j d | j d]; simpl in *.
- unfold timestamp_native_value, get. by rewrite Hnone.
- destruct life_description_eq as (desc & Hl & Hk & _).
  rewrite Hl in Hc. injection Hc as <-. rewrite Hk in Hnone.
  unfold life_native_value, get. by rewrite Hnone.
- unfold sensor_native_value, get. by rewrite Hnone.
- unfold measurement_native_value, get. by rewrite Hnone.
Qed.

(** X9. The default entry of the life configuration agrees with the
    catalog: for a device outside the DETECT series the name and the unit
    the lookup selects are the ones the life descriptor of the catalog
    already carries; for a DETECT device the lookup selects "Days to
    replace" and days, which differ from the catalog's in both. *)
Theorem catalog_life_description_is_default (device : gmap string value) desc :
  life_description = Some desc →
  model_identifier_ok device →
  ∃ config,
    _model_config device = Ret config
    ∧ if in_detect_series device
      then config_name config = "Days to replace"
           ∧ config_unit config = DAYS
           ∧ name desc ≠ config_name config
           ∧ native_unit_of_measurement desc ≠ Some (config_unit config)
      else name desc = config_name config
           ∧ native_unit_of_measurement desc = Some (config_unit config).
Proof.
intros Hl Hok. rewrite (model_config_ok _ Hok).
vm_compute in Hl. injection Hl as <-.
eexists. split; [reflexivity|].
by destruct (in_detect_series device).
Qed.

Lemma unit_of_code_Some code unit :
  unit_of_code code = Some unit → (code, unit) ∈ unit_table.
Proof.
unfold unit_of_code.
repeat match goal with
  | |- context [String.eqb code ?c] =>
      destruct (String.eqb_spec code c) as [-> | _];
      [ intros [= <-]; apply list_elem_of_In; simpl; tauto |]
  end.
done.
Qed.

(** X11. The unit read never makes up a unit: when it returns one, the raw
    value is a nested object whose unit code is a string that matches, up to
    the case of its letters, the entry of that unit in the table. *)
Theorem unit_only_from_table (device : gmap string value) desc unit :
  measurement_native_unit_of_measurement device desc = Ret (Some unit) →
  ∃ d text code,
    get device (key desc) = PDict d
    ∧ get_default d KEY_UNIT (PStr "") = PStr text
    ∧ (code, unit) ∈ unit_table
    ∧ eqb_ignore_case text code = true.
Proof.
unfold measurement_native_unit_of_measurement.
destruct (get device (key desc)) as [| | | | | |d]; try done.
destruct (get_default d KEY_UNIT (PStr "")) as [| | | |text| |] eqn:Ht;
  try done.
intros [= Hu]. apply unit_of_code_Some in Hu.
exists d, text, (Str.upper text).
split; [reflexivity|]. split; [exact Ht|]. split; [exact Hu|].
apply eqb_ignore_case_spec.
by destruct (unit_of_code_table _ _ Hu) as [-> _].
Qed.

Lemma is_leap_leap_year y : Datetime.is_leap y = true → leap_year y.
Proof.
unfold Datetime.is_leap, leap_year.
rewrite andb_true_iff, orb_true_iff, negb_true_iff, !Z.eqb_eq, Z.eqb_neq.
intros [H4 H]. split.
- by apply Z.mod_divide.
- intros H100. apply Z.mod_divide in H100; [|done].
  destruct H as [H | H]; [done|]. by apply Z.mod_divide.
Qed.

(** What the constructor of [datetime] lets through is a day of the
    calendar and a time of day. *)
Lemma valid_fields_real y m d hh mi ss :
  Datetime.valid_fields y m d hh mi ss = true →
  real_date y m d ∧ real_time hh mi ss.
Proof.
unfold Datetime.valid_fields. rewrite !andb_true_iff, !Z.leb_le.
intros H. repeat match goal with H : _ ∧ _ |- _ => destruct H end.
split; [|unfold real_time; lia].
unfold real_date. split; [lia|]. split; [lia|]. split; [lia|].
assert (m = 1 ∨ m = 2 ∨ m = 3 ∨ m = 4 ∨ m = 5 ∨ m = 6 ∨ m = 7 ∨ m = 8
        ∨ m = 9 ∨ m = 10 ∨ m = 11 ∨ m = 12) as Hm by lia.
unfold Datetime.days_in_month in *.
destruct Hm as [-> | [-> | Hm]].
- exists 31. split; [reflexivity | left; simpl in *; lia].
- exists 28. split; [reflexivity|].
  simpl in *. destruct (Datetime.is_leap y) eqn:Hl.
  + destruct (Z_le_gt_dec d 28); [by left | right].
    split; [done|]. split; [lia | by apply is_leap_leap_year].
  + by left.
- repeat destruct Hm as [-> | Hm]; try subst m;
    (eexists; split; [reflexivity | left; simpl in *; lia]).
Qed.

Lemma upper_digit_char d : 0 ≤ d ≤ 9 → Str.upper_char (digit_char d) = digit_char d.
Proof.
intros Hd.
assert (d = 0 ∨ d = 1 ∨ d = 2 ∨ d = 3 ∨ d = 4 ∨ d = 5 ∨ d = 6 ∨ d = 7
        ∨ d = 8 ∨ d = 9) as H by lia.
repeat destruct H as [-> | H]; try subst d; reflexivity.
Qed.

(** A separator is not found where a digit stands. *)
Lemma lit_digit_char {T} c (k : string → option T) d rest :
  0 ≤ d ≤ 9 → Datetime.digit (Str.upper_char c) = None →
  Datetime.lit c k (String (digit_char d) rest) = None.
Proof.
intros Hd Hc. unfold Datetime.lit. rewrite upper_digit_char by done.
destruct (Ascii.eqb_spec (digit_char d) (Str.upper_char c)) as [Heq | _]; [|done].
by rewrite <- Heq, digit_digit_char in Hc.
Qed.

Lemma orelse_None_r {T} (a : option T) : Datetime.orelse a None = a.
Proof. by destruct a. Qed.

Ltac settle_field :=
  repeat match goal with
  | |- context [(?a <=? ?b)] =>
      first [ rewrite (proj2 (Z.leb_le a b)) by lia
            | rewrite (proj2 (Z.leb_gt a b)) by lia
            | destruct (Z.leb_spec a b) ]
  end;
  cbv beta iota delta [andb];
  repeat match goal with
  | |- context [Datetime.orelse None ?a] =>
      change (Datetime.orelse None a) with a
  end;
  rewrite ?orelse_None_r;
  first [ reflexivity | exfalso; lia ].

Section MiddleField.
Context {T : Type} (k : Z → string → option T).
Hypothesis k_digit : ∀ v d rest, 0 ≤ d ≤ 9 → k v (String (digit_char d) rest) = None.

Lemma re_m_pad2_eq v rest :
  0 ≤ v ≤ 99 →
  Datetime.re_m k (pad2 v rest)
  = if (1 <=? v) && (v <=? 12) then k v rest else None.
Proof using k_digit.
intros Hv.
destruct (pad2_digits v rest Hv) as (d1 & d2 & -> & H1 & H2 & ->).
unfold Datetime.re_m.
rewrite !two_digit_chars, !one_digit_char, !k_digit by done.
settle_field.
Qed.

Lemma re_d_pad2_eq v rest :
  0 ≤ v ≤ 99 →
  Datetime.re_d k (pad2 v rest)
  = if (1 <=? v) && (v <=? 31) then k v rest else None.
Proof using k_digit.
intros Hv.
destruct (pad2_digits v rest Hv) as (d1 & d2 & -> & H1 & H2 & ->).
unfold Datetime.re_d.
rewrite lit_digit_char by done.
rewrite !two_digit_chars, !one_digit_char, !k_digit by done.
settle_field.
Qed.

Lemma re_H_pad2_eq v rest :
  0 ≤ v ≤ 99 →
  Datetime.re_H k (pad2 v rest) = if v <=? 23 then k v rest else None.
Proof using k_digit.
intros Hv.
destruct (pad2_digits v rest Hv) as (d1 & d2 & -> & H1 & H2 & ->).
unfold Datetime.re_H.
rewrite !two_digit_chars, !one_digit_char, !k_digit by done.
settle_field.
Qed.

Lemma re_M_pad2_eq v rest :
  0 ≤ v ≤ 99 →
  Datetime.re_M k (pad2 v rest) = if v <=? 59 then k v rest else None.
Proof using k_digit.
intros Hv.
destruct (pad2_digits v rest Hv) as (d1 & d2 & -> & H1 & H2 & ->).
unfold Datetime.re_M.
rewrite !two_digit_chars, !one_digit_char, !k_digit by done.
settle_field.
Qed.

End MiddleField.

Lemma re_Y_pad4_eq {T} (k : Z → string → option T) v rest :
  0 ≤ v ≤ 9999 → Datetime.re_Y k (pad4 v rest) = k v rest.
Proof.
intros Hv.
destruct (pad4_digits v rest Hv) as (a & b & c & d & -> & Ha & Hb & Hc & Hd & ->).
unfold Datetime.re_Y. rewrite !one_digit_char by done.
settle_field.
Qed.

(** The field of the seconds ends the pattern: of two digits above 61 the
    first alone is taken and the second is left over. *)
Lemma re_S_digits {T} (g : Z → string → T) d1 d2 rest :
  0 ≤ d1 ≤ 9 → 0 ≤ d2 ≤ 9 →
  Datetime.re_S (λ v r, Some (g v r))
    (String (digit_char d1) (String (digit_char d2) rest))
  = Some (if 10 * d1 + d2 <=? 61 then g (10 * d1 + d2) rest
          else g d1 (String (digit_char d2) rest)).
Proof.
intros H1 H2. unfold Datetime.re_S.
rewrite !two_digit_chars, !one_digit_char by done.
repeat match goal with
  | |- context [(?a <=? ?b)] =>
      first [ rewrite (proj2 (Z.leb_le a b)) by lia
            | rewrite (proj2 (Z.leb_gt a b)) by lia
            | destruct (Z.leb_spec a b) ]
  end;
  cbv beta iota delta [andb Datetime.orelse];
  first [ reflexivity | exfalso; lia ].
Qed.

(** A written stamp whose fields the constructor of [datetime] refuses does
    not parse. *)
Lemma strptime_isoformat_refused y m d hh mi ss :
  0 ≤ y ≤ 9999 → 0 ≤ m ≤ 99 → 0 ≤ d ≤ 99 →
  0 ≤ hh ≤ 99 → 0 ≤ mi ≤ 99 → 0 ≤ ss ≤ 99 →
  Datetime.valid_fields y m d hh mi ss = false →
  Datetime.strptime (isoformat y m d hh mi ss "") = Raise ValueError.
Proof.
intros Hy Hm Hd Hh Hmi Hs Hv.
unfold Datetime.strptime, Datetime.format_match, isoformat.
rewrite re_Y_pad4_eq by done. rewrite lit_same.
rewrite re_m_pad2_eq
  by first [ done | intros; apply lit_digit_char; [done | reflexivity] ].
destruct ((1 <=? m) && (m <=? 12)); [|done]. rewrite lit_same.
rewrite re_d_pad2_eq
  by first [ done | intros; apply lit_digit_char; [done | reflexivity] ].
destruct ((1 <=? d) && (d <=? 31)); [|done]. rewrite lit_same.
rewrite re_H_pad2_eq
  by first [ done | intros; apply lit_digit_char; [done | reflexivity] ].
destruct (hh <=? 23); [|done]. rewrite lit_same.
rewrite re_M_pad2_eq
  by first [ done | intros; apply lit_digit_char; [done | reflexivity] ].
destruct (mi <=? 59); [|done]. rewrite lit_same.
destruct (pad2_digits ss "" Hs) as (d1 & d2 & Hss & H1 & H2 & ->).
rewrite re_S_digits by done.
destruct (10 * d1 + d2 <=? 61); [|done].
by rewrite <- Hss, Hv.
Qed.

Lemma isoformat_passes_digits (f : ascii → string → string) c y m d hh mi ss rest :
  (∀ a s, a ≠ c → f c (String a s) = String a (f c s)) →
  0 ≤ y ≤ 9999 → 0 ≤ m ≤ 99 → 0 ≤ d ≤ 99 →
  0 ≤ hh ≤ 99 → 0 ≤ mi ≤ 99 → 0 ≤ ss ≤ 99 →
  Datetime.digit c = None → c ≠ "-"%char → c ≠ "T"%char → c ≠ ":"%char →
  f c (isoformat y m d hh mi ss rest) = isoformat y m d hh mi ss (f c rest).
Proof.
intros Hf Hy Hm Hd Hh Hmi Hs Hc H1 H2 H3.
unfold isoformat, pad4, pad2.
rewrite !Hf
  by first [ apply digit_char_plain; [Z.div_mod_to_equations; lia | done]
           | by apply not_eq_sym ].
done.
Qed.

Lemma stamp_text_of_digits y m d hh mi ss b :
  0 ≤ y ≤ 9999 → 0 ≤ m ≤ 99 → 0 ≤ d ≤ 99 →
  0 ≤ hh ≤ 99 → 0 ≤ mi ≤ 99 → 0 ≤ ss ≤ 99 →
  Str.split_head "." (Str.strip "Z" (isoformat y m d hh mi ss (Str.repeat_char "Z" b)))
  = isoformat y m d hh mi ss "".
Proof.
intros Hy Hm Hd Hh Hmi Hs. unfold Str.strip.
assert (Str.lstrip "Z" (isoformat y m d hh mi ss (Str.repeat_char "Z" b))
        = isoformat y m d hh mi ss (Str.repeat_char "Z" b)) as ->.
{ unfold isoformat, pad4.
  apply lstrip_cons_ne, digit_char_plain; [Z.div_mod_to_equations; lia | done]. }
rewrite (isoformat_passes_digits Str.rstrip) by (done || apply rstrip_cons_ne).
rewrite (isoformat_passes_digits Str.split_head)
  by (done || apply split_head_cons_ne).
by rewrite rstrip_all.
Qed.

(** X6. An instant the timestamp read returns is a real one, whatever the
    text: a day of the Gregorian calendar in the years 1 to 9999 and a time
    of day, to the second, tagged UTC.  And a stamp written with four and
    two digits whose fields are no such day and time, like a February 30, an
    hour 24 or a second 60, reads as unknown. *)
Theorem timestamp_instant_well_formed (device : gmap string value) desc :
  (∀ dt, timestamp_native_value device desc = Ret (Some dt) → well_formed dt)
  ∧ (∀ y m d hh mi ss b,
        0 ≤ y ≤ 9999 → 0 ≤ m ≤ 99 → 0 ≤ d ≤ 99 →
        0 ≤ hh ≤ 99 → 0 ≤ mi ≤ 99 → 0 ≤ ss ≤ 99 →
        ¬ (real_date y m d ∧ real_time hh mi ss) →
        timestamp_native_value
          (<[key desc := PStr (isoformat y m d hh mi ss (Str.repeat_char "Z" b))]>
             device) desc
        = Ret None).
Proof.
split.
- intros dt. unfold timestamp_native_value.
  destruct (get device (key desc)) as [| | | |s| |]; try done.
  destruct (Datetime.strptime _) as [dt0|[]] eqn:E; try done.
  intros [= <-].
  apply strptime_Ret in E as (y & m & d & hh & mi & ss & -> & Hv).
  apply valid_fields_real in Hv as [Hd Ht].
  unfold well_formed. simpl. split; [exact Hd|]. split; [exact Ht|]. by split.
- intros y m d hh mi ss b Hy Hm Hd Hh Hmi Hs Hreal.
  rewrite (timestamp_of_string _ _ _ (get_insert _ _ _)).
  unfold shown_instant. rewrite stamp_text_of_digits by done.
  rewrite strptime_isoformat_refused; try done.
  destruct (Datetime.valid_fields y m d hh mi ss) eqn:Hv; [|done].
  by apply valid_fields_real in Hv.
Qed.

End RenderFurther.

(** * The further properties at the sample data *)

Section FurtherWitnesses.
Import Py Catalog Render Setup Expected Notions Further Iso.

Lemma sample_sensors_eq : async_setup_entry Samples.devices = Ret sample_sensors.
Proof. reflexivity. Qed.

Lemma setup_entry_app_witness :
  async_setup_entry ([(1, Samples.detect_device)] ++ [(2, Samples.legacy_device)])
  = Ret (take 2 sample_sensors ++ drop 2 sample_sensors).
Proof.
apply setup_entry_app; reflexivity.
Defined.

Lemma sensors_have_device_and_class_witness :
  class_matches (KiddeSensorEntity 2 Samples.batt_volt)
  ∧ ∃ device_data,
      (entity_device (KiddeSensorEntity 2 Samples.batt_volt), device_data)
        ∈ Samples.devices
      ∧ is_Some (device_data !! entity_key (KiddeSensorEntity 2 Samples.batt_volt)).
Proof.
apply (sensors_have_device_and_class Samples.devices sample_sensors);
  [exact sample_sensors_eq|].
do 4 apply list_elem_of_further. apply list_elem_of_here.
Defined.

Lemma sensor_count_bounded_witness :
  (∀ device_id,
      (length (filter (λ e, entity_device e = device_id) sample_sensors) ≤ 25)%nat)
  ∧ (length sample_sensors ≤ 25 * length Samples.devices)%nat.
Proof.
apply sensor_count_bounded; [exact sample_ids_NoDup | exact sample_sensors_eq].
Defined.

Lemma setup_entry_ignores_values_witness :
  async_setup_entry Samples.devices = async_setup_entry refreshed_devices.
Proof.
apply setup_entry_ignores_values.
repeat constructor; vm_compute; reflexivity.
Defined.

Lemma timestamp_instant_well_formed_witness :
  well_formed (Datetime.mk_datetime 2024 6 14 3 40 39 0 (Some Datetime.UTC))
  ∧ timestamp_native_value
      (<[key Samples.last_seen
         := PStr (isoformat 2024 2 30 16 0 0 (Str.repeat_char "Z" 1))]> ∅)
      Samples.last_seen
    = Ret None.
Proof.
split.
- apply (proj1 (timestamp_instant_well_formed Samples.detect_device
                  Samples.last_seen)).
  vm_compute; reflexivity.
- apply (proj2 (timestamp_instant_well_formed ∅ Samples.last_seen)); try lia.
  intros [(_ & _ & _ & len & Hlen & Hor) _].
  vm_compute in Hlen. injection Hlen as <-.
  destruct Hor as [? | (_ & ? & _)]; lia.
Defined.

Lemma written_stamp_reads_back_witness :
  timestamp_native_value
    (<[key Samples.last_seen
       := PStr (isoformat 2024 2 29 23 59 59 (Str.repeat_char "Z" 1))]> ∅)
    Samples.last_seen
  = Ret (Some (Datetime.mk_datetime 2024 2 29 23 59 59 0 (Some Datetime.UTC)))
  ∧ timestamp_native_value
      (<[key Samples.last_seen
         := PStr (isoformat 2024 2 29 23 59 59 (String "." "667544824Z"))]> ∅)
      Samples.last_seen
    = Ret (Some (Datetime.mk_datetime 2024 2 29 23 59 59 0 (Some Datetime.UTC))).
Proof. apply written_stamp_reads_back. reflexivity. Defined.

Lemma dropped_key_reads_unknown_witness :
  Read.native_value (KiddeSensorMeasurementEntity 2 Samples.hpa)
    Samples.detect_device
  = Ret (Read.Raw PNone).
Proof.
apply (dropped_key_reads_unknown Samples.devices sample_sensors);
  [exact sample_sensors_eq | | vm_compute; reflexivity].
do 6 apply list_elem_of_further. apply list_elem_of_here.
Defined.

Lemma catalog_life_description_is_default_witness :
  ∃ config,
    _model_config Samples.legacy_device = Ret config
    ∧ if in_detect_series Samples.legacy_device
      then config_name config = "Days to replace"
           ∧ config_unit config = DAYS
           ∧ name Samples.life ≠ config_name config
           ∧ native_unit_of_measurement Samples.life ≠ Some (config_unit config)
      else name Samples.life = config_name config
           ∧ native_unit_of_measurement Samples.life = Some (config_unit config).
Proof.
apply catalog_life_description_is_default; [reflexivity | vm_compute; reflexivity].
Defined.

Lemma creation_order_fixed_witness :
  entity_key <$> filter (λ e, entity_device e = 2) sample_sensors
  `sublist_of` creation_keys.
Proof.
apply (creation_order_fixed Samples.devices sample_sensors 2 Samples.legacy_device);
  [exact sample_ids_NoDup | exact sample_sensors_eq |].
apply list_elem_of_further, list_elem_of_here.
Defined.

Lemma unit_only_from_table_witness :
  ∃ d text code,
    get Samples.legacy_device (key Samples.hpa) = PDict d
    ∧ get_default d KEY_UNIT (PStr "") = PStr text
    ∧ (code, PA) ∈ unit_table
    ∧ eqb_ignore_case text code = true.
Proof. apply unit_only_from_table. vm_compute; reflexivity. Defined.

End FurtherWitnesses.
